(** * spacy_llm.backends.rest.backend: the REST completion client

    A shallow embedding of [src/spacy_llm/backends/rest/backend.py] (class
    [Backend]) and the properties of its constructor and of its call
    operation.

    Python values are modelled by the type [json]; a [dict] is an
    association list in insertion order with the dictionary operations the
    code uses; exceptions are values of [exn] carried by [Result]; the
    client object and the network are threaded through a state and
    exception monad.  The two external serializers are parameters of the
    development: [srsly.json_dumps], which may raise (it does on an integer
    beyond 64 bits), and Python's [str] of a response object.  A Python
    [str] is a Rocq [string] holding its UTF-8 encoding. *)

Set Warnings "-register-all".
From Stdlib Require Import ZArith List String Ascii Bool Lia DecimalString.
From Stdlib Require Import Floats.PrimFloat.
Import ListNotations.
Local Open Scope Z_scope.
Local Open Scope list_scope.

Local Infix "^^" := String.append (at level 60, right associativity).

(** ** Python objects

    The values that a parsed JSON response or a configuration mapping can
    hold.  [JObj] keeps its members in insertion order, as a Python [dict]
    does. *)
Inductive json : Type :=
| JNull
| JBool (b : bool)
| JInt (n : Z)
| JFloat (x : float)
| JStr (s : string)
| JArr (items : list json)
| JObj (members : list (string * json)).

(** A Python [dict] with string keys. *)
Definition pydict : Type := list (string * json).

(** ** Exceptions and results *)
Inductive exn : Type :=
| ValueError (msg : string)
| ConnectionError (msg : string)
| KeyError (key : string)
| TypeError
| AssertionError
| OverflowError
| OtherError (name : string).

Inductive Result (A : Type) : Type :=
| Return (a : A)
| Raise (e : exn).
Arguments Return {A} a.
Arguments Raise {A} e.

(** [except ConnectionError]: the clause names Python's builtin class. *)
Definition is_ConnectionError (e : exn) : bool :=
  match e with
  | ConnectionError _ => true
  | _ => false
  end.

(** ** Dictionary operations *)
Module Dict.

(** [k in d] *)
Definition contains (k : string) (d : pydict) : bool :=
  existsb (fun kv => String.eqb k (fst kv)) d.

(** [d.get(k)] *)
Fixpoint get (k : string) (d : pydict) : option json :=
  match d with
  | [] => None
  | (k', v) :: rest => if String.eqb k k' then Some v else get k rest
  end.

(** The dictionary without key [k]. *)
Definition remove (k : string) (d : pydict) : pydict :=
  filter (fun kv => negb (String.eqb k (fst kv))) d.

(** [d.pop(k)]: the value removed and the dictionary left, [KeyError]
    when the key is absent. *)
Definition pop (k : string) (d : pydict) : Result (json * pydict) :=
  match get k d with
  | Some v => Return (v, remove k d)
  | None => Raise (KeyError k)
  end.

(** [d[k] = v]: a present key keeps its position, a new key goes last. *)
Fixpoint set (k : string) (v : json) (d : pydict) : pydict :=
  match d with
  | [] => [(k, v)]
  | (k', v') :: rest =>
      if String.eqb k k' then (k', v) :: rest else (k', v') :: set k v rest
  end.

(** [{**d, **extra}]: the members of [extra] are stored into [d] one
    after the other. *)
Definition update (d extra : pydict) : pydict :=
  fold_left (fun acc kv => set (fst kv) (snd kv) acc) extra d.

Definition keys (d : pydict) : list string := map fst d.

(** The keys of a dictionary are pairwise different. *)
Definition wf (d : pydict) : Prop := NoDup (keys d).

End Dict.

(** ** The operators the code applies to a response *)

(** [s in t] on strings: [s] occurs in [t]. *)
Definition str_contains (s t : string) : bool :=
  match String.index 0 s t with
  | Some _ => true
  | None => false
  end.

Definition is_str (k : string) (v : json) : bool :=
  match v with
  | JStr s => String.eqb k s
  | _ => false
  end.

(** [k in v] for a string [k]: key membership on a dict, element
    membership on a list, substring on a string, [TypeError] otherwise. *)
Definition py_contains (k : string) (v : json) : Result bool :=
  match v with
  | JObj members => Return (Dict.contains k members)
  | JArr items => Return (existsb (is_str k) items)
  | JStr s => Return (str_contains k s)
  | _ => Raise TypeError
  end.

(** [v[k]] for a string [k]. *)
Definition py_getitem (v : json) (k : string) : Result json :=
  match v with
  | JObj members =>
      match Dict.get k members with
      | Some x => Return x
      | None => Raise (KeyError k)
      end
  | _ => Raise TypeError
  end.

(** A byte that continues a UTF-8 sequence ([10xxxxxx]). *)
Definition is_continuation (c : ascii) : bool :=
  (128 <=? nat_of_ascii c)%nat && (nat_of_ascii c <? 192)%nat.

(** The characters of a string, each with the bytes that encode it: a
    byte joins the character that follows it when that one starts with a
    continuation byte. *)
Fixpoint characters (bytes : list ascii) : list string :=
  match bytes with
  | [] => []
  | c :: rest =>
      match characters rest with
      | String d tail :: more =>
          if is_continuation d then String c (String d tail) :: more
          else String c EmptyString :: String d tail :: more
      | more => String c EmptyString :: more
      end
  end.

(** [len(v)]; the length of a string is its number of characters. *)
Definition py_len (v : json) : Result nat :=
  match v with
  | JObj members => Return (List.length members)
  | JArr items => Return (List.length items)
  | JStr s => Return (List.length (characters (list_ascii_of_string s)))
  | _ => Raise TypeError
  end.

(** The elements that iterating over [v] yields: the items of a list, the
    keys of a dict, the characters of a string. *)
Definition py_iter (v : json) : Result (list json) :=
  match v with
  | JObj members => Return (map (fun kv => JStr (fst kv)) members)
  | JArr items => Return items
  | JStr s => Return (map JStr (characters (list_ascii_of_string s)))
  | _ => Raise TypeError
  end.

(** [str(n)] for an [int]. *)
Definition str_int (n : Z) : string := NilZero.string_of_int (Z.to_int n).

(** [range(n)] *)
Definition range (n : Z) : list Z := map Z.of_nat (seq 0 (Z.to_nat n)).

(** [repr] of a tuple of strings, as the constructor's message prints
    [_SUPPORTED_APIS]. *)
Fixpoint repr_items (l : list string) : string :=
  match l with
  | [] => EmptyString
  | [s] => "'" ^^ s ^^ "'"
  | s :: rest => "'" ^^ s ^^ "', " ^^ repr_items rest
  end.

Definition repr_tuple (l : list string) : string :=
  "(" ^^ repr_items l ^^ (match l with [_] => "," | _ => "" end) ^^ ")".

(** ** The state and exception monad *)
Definition M (S A : Type) : Type := S -> Result A * S.

Definition ret {S A : Type} (a : A) : M S A := fun st => (Return a, st).

Definition raise {S A : Type} (e : exn) : M S A := fun st => (Raise e, st).

Definition bind {S A B : Type} (m : M S A) (k : A -> M S B) : M S B :=
  fun st =>
    match m st with
    | (Return a, st') => k a st'
    | (Raise e, st') => (Raise e, st')
    end.

Definition lift {S A : Type} (r : Result A) : M S A := fun st => (r, st).

Definition gets {S A : Type} (f : S -> A) : M S A := fun st => (Return (f st), st).

(** [try: body  except <class>: handler] *)
Definition try_except {S A : Type} (body : M S A) (catches : exn -> bool)
    (handler : M S A) : M S A :=
  fun st =>
    match body st with
    | (Raise e, st') => if catches e then handler st' else (Raise e, st')
    | done => done
    end.

Notation "x <- m ;; k" := (bind m (fun x => k))
  (at level 61, m at next level, right associativity).

(** ** The client *)

(** The attributes of a [Backend] instance. *)
Record Backend : Type := {
  _api : string;
  _config : pydict;
  _strict : bool;
  _max_tries : Z;
  _timeout : Z;
  _url : json
}.

(** The arguments of one [requests.post]. *)
Record Request : Type := {
  req_url : json;
  req_headers : list (string * string);
  req_json : pydict;
  req_timeout : Z
}.

(** What one [requests.post(...).json()] evaluates to: the parsed body, or
    the exception it raises. *)
Inductive Reply : Type :=
| Json (body : json)
| Fails (e : exn).

(** The network met by a run: the reply to the [k]-th request posted. *)
Definition Network : Type := nat -> Reply.

(** The process environment. *)
Definition Environ : Type := string -> option string.

(** [os.getenv(name, default)] *)
Definition getenv (env : Environ) (name default : string) : string :=
  match env name with
  | Some v => v
  | None => default
  end.

(** The state a call runs in: the client and the requests posted so far. *)
Record State : Type := {
  self : Backend;
  sent : list Request
}.

Definition _SUPPORTED_APIS : list string := ["OpenAI"%string].

Definition _DEFAULT_URLS : list (string * string) :=
  [("OpenAI"%string, "https://api.openai.com/v1/completions"%string)].

Fixpoint lookup {V : Type} (k : string) (table : list (string * V)) : option V :=
  match table with
  | [] => None
  | (k', v) :: rest => if String.eqb k k' then Some v else lookup k rest
  end.

(** [table[k]] on a class-level table. *)
Definition subscript {V : Type} (table : list (string * V)) (k : string) : Result V :=
  match lookup k table with
  | Some v => Return v
  | None => Raise (KeyError k)
  end.

(** [Backend.__init__]; the state is the log of requests posted. *)
Definition __init__ (api : string) (config : pydict) (strict : bool)
    (max_tries timeout : Z) : M (list Request) Backend :=
  if negb (existsb (String.eqb api) _SUPPORTED_APIS) then
    raise (ValueError (api ^^ " is not one of the supported APIs ("
                           ^^ repr_tuple _SUPPORTED_APIS ^^ ")."))
  else
    resolved <- (if Dict.contains "url" config
                 then lift (Dict.pop "url" config)
                 else u <- lift (subscript _DEFAULT_URLS api) ;;
                      ret (JStr u, config)) ;;
    ret {| _api := api;
           _config := snd resolved;
           _strict := strict;
           _max_tries := max_tries;
           _timeout := timeout;
           _url := fst resolved |}.

(** [requests.post(url, headers=..., json=..., timeout=...).json()] *)
Definition requests_post (net : Network) (r : Request) : M State json :=
  fun st =>
    let st' := {| self := self st; sent := sent st ++ [r] |} in
    match net (List.length (sent st)) with
    | Json body => (Return body, st')
    | Fails e => (Raise e, st')
    end.

(** The [headers] of a request; the bearer token is read from the
    environment at call time. *)
Definition request_headers (env : Environ) : list (string * string) :=
  [("Content-Type"%string, "application/json"%string);
   ("Authorization"%string, "Bearer " ^^ getenv env "OPENAI_API_KEY" "")].

(** The body of a request: [{"prompt": prompts, **self._config}]. *)
Definition json_data (prompts : list string) (config : pydict) : pydict :=
  Dict.update [("prompt"%string, JArr (map JStr prompts))] config.

Section Client.

(** [srsly.json_dumps]: the serialization, or the exception it raises *)
Variable json_dumps : json -> Result string.
(** [str] of a response object, as an f-string formats it *)
Variable py_str : json -> string.

(** The retry loop: [for request_tries in range(self._max_tries)] with
    its [try] / [break] / [except ConnectionError: pass] body.  The
    result is the final value of [request_tries] and of [responses]. *)
Fixpoint query_api (net : Network) (headers : list (string * string))
    (body : pydict) (tries : list Z) (request_tries : Z) (responses : json)
    : M State (Z * json) :=
  match tries with
  | [] => ret (request_tries, responses)
  | i :: rest =>
      step <- try_except
                (url <- gets (fun st => _url (self st)) ;;
                 timeout <- gets (fun st => _timeout (self st)) ;;
                 r <- requests_post net {| req_url := url;
                                           req_headers := headers;
                                           req_json := body;
                                           req_timeout := timeout |} ;;
                 ret (Some r))
                is_ConnectionError
                (ret None) ;;
      match step with
      | Some r => ret (i, r)
      | None => query_api net headers body rest i responses
      end
  end.

(** The loop over [zip(prompts, responses["choices"])]. *)
Fixpoint collect (pairs : list (string * json)) (api_responses : list json)
    : M State (list json) :=
  match pairs with
  | [] => ret api_responses
  | (prompt, response) :: rest =>
      has_text <- lift (py_contains "text" response) ;;
      if (has_text : bool) then
        text <- lift (py_getitem response "text") ;;
        collect rest (api_responses ++ [text])
      else
        dumped <- lift (json_dumps response) ;;
        collect rest (api_responses ++ [JStr dumped])
  end.

(** The part of [_call_openai] under [# Process responses.] *)
Definition process_responses (prompts : list string) (responses : json)
    : M State (list json) :=
  has_error <- lift (py_contains "error" responses) ;;
  if (has_error : bool) then
    strict <- gets (fun st => _strict (self st)) ;;
    if (strict : bool) then
      raise (ValueError ("API call failed: " ^^ py_str responses ^^ "."))
    else
      dumped <- lift (json_dumps responses) ;;
      ret (repeat (JStr dumped) (List.length prompts))
  else
    choices <- lift (py_getitem responses "choices") ;;
    n <- lift (py_len choices) ;;
    if negb (Nat.eqb n (List.length prompts)) then raise AssertionError
    else
      entries <- lift (py_iter choices) ;;
      collect (combine prompts entries) [].

(** [Backend._call_openai] *)
Definition _call_openai (env : Environ) (net : Network) (prompts : list string)
    : M State (list json) :=
  let headers := request_headers env in
  config <- gets (fun st => _config (self st)) ;;
  let body := json_data prompts config in
  max_tries <- gets (fun st => _max_tries (self st)) ;;
  queried <- query_api net headers body (range max_tries) 0 (JObj []) ;;
  let request_tries := fst queried in
  let responses := snd queried in
  max_tries' <- gets (fun st => _max_tries (self st)) ;;
  if request_tries =? max_tries' then
    timeout <- gets (fun st => _timeout (self st)) ;;
    max_tries'' <- gets (fun st => _max_tries (self st)) ;;
    raise (ConnectionError
             ("OpenAI API could not be reached within " ^^ str_int timeout
                ^^ " seconds in " ^^ str_int max_tries''
                ^^ " attempts. Check your network connection and the availability "
                ^^ "of the OpenAI API."))
  else
    process_responses prompts responses.

(** [self._calls], the table from API name to handler. *)
Definition _calls
    : list (string * (Environ -> Network -> list string -> M State (list json))) :=
  [("OpenAI"%string, _call_openai)].

(** [Backend.__call__] *)
Definition __call__ (env : Environ) (net : Network) (prompts : list string)
    : M State (list json) :=
  api <- gets (fun st => _api (self st)) ;;
  handler <- lift (subscript _calls api) ;;
  handler env net prompts.

(** *** The result of the loop over the choices, entry by entry

    [entry_output] is what one iteration appends for an entry, and
    [outputs] what the whole loop appends; [collect_outputs] below shows
    that [collect] computes them. *)
Definition entry_output (response : json) : Result json :=
  match py_contains "text" response with
  | Return true => py_getitem response "text"
  | Return false =>
      match json_dumps response with
      | Return dumped => Return (JStr dumped)
      | Raise e => Raise e
      end
  | Raise e => Raise e
  end.

Fixpoint outputs (entries : list json) : Result (list json) :=
  match entries with
  | [] => Return []
  | e :: rest =>
      match entry_output e with
      | Return o =>
          match outputs rest with
          | Return os => Return (o :: os)
          | Raise x => Raise x
          end
      | Raise x => Raise x
      end
  end.

End Client.

(** The request that one attempt of the retry loop posts for client [b]. *)
Definition attempt_request (headers : list (string * string)) (body : pydict)
    (b : Backend) : Request :=
  {| req_url := _url b;
     req_headers := headers;
     req_json := body;
     req_timeout := _timeout b |}.

(** The request that a call of client [b] posts at every attempt. *)
Definition request_of (env : Environ) (prompts : list string) (b : Backend) : Request :=
  attempt_request (request_headers env) (json_data prompts (_config b)) b.

(** [answered net start max_tries resp]: on network [net], with [start]
    requests posted before, a call allowed [max_tries] attempts obtains
    the parsed response [resp]: some attempt [k < max_tries] is answered
    with it, and every attempt before fails with a [ConnectionError]. *)
Definition answered (net : Network) (start : nat) (max_tries : Z) (resp : json) : Prop :=
  exists k : nat,
    Z.of_nat k < max_tries /\
    (forall j, (j < k)%nat ->
       exists e, net (start + j)%nat = Fails e /\ is_ConnectionError e = true) /\
    net (start + k)%nat = Json resp.

(** [unreachable net start max_tries]: each of the [max_tries] attempts
    fails with a [ConnectionError]. *)
Definition unreachable (net : Network) (start : nat) (max_tries : Z) : Prop :=
  forall j : nat, Z.of_nat j < max_tries ->
    exists e, net (start + j)%nat = Fails e /\ is_ConnectionError e = true.

(** The entries of [choices] on which the test ["text" in response] and
    the subscript [response["text"]] of one iteration do not raise: a JSON
    object, or a string or an array in which ["text"] does not occur. *)
Definition entry_ok (e : json) : bool :=
  match e with
  | JObj _ => true
  | JArr items => negb (existsb (is_str "text") items)
  | JStr s => negb (str_contains "text" s)
  | _ => false
  end.

Definition is_object (e : json) : bool :=
  match e with
  | JObj _ => true
  | _ => false
  end.

(** The entry is an object with a [text] field. *)
Definition has_text_field (e : json) : bool :=
  match e with
  | JObj members => Dict.contains "text" members
  | _ => false
  end.

(** The entries on which one iteration of the loop does not raise:
    [entry_ok], and an entry without a [text] field is one that
    [json_dumps] serializes. *)
Definition entry_returns (json_dumps : json -> Result string) (e : json) : Prop :=
  entry_ok e = true /\
  (has_text_field e = false -> exists dumped, json_dumps e = Return dumped).

(** ** Concrete serializers for the examples

    A rendering of Python's [repr] and a compact JSON rendering, exact on
    values built from [None], booleans, integers, plain ASCII strings
    without quotes or escapes, lists and dicts; a float is rendered by its
    sign only.  The JSON rendering raises [OverflowError] on an integer
    that does not fit 64 bits, signed or unsigned, as [srsly.json_dumps]
    does.  The theorems hold for every pair of serializers; these
    instantiate them on concrete inputs. *)
Definition dquote : string := String (ascii_of_nat 34) EmptyString.

Definition float_stub (x : float) : string :=
  if PrimFloat.ltb x PrimFloat.zero then "-float" else "float".

Fixpoint demo_str (v : json) : string :=
  match v with
  | JNull => "None"
  | JBool true => "True"
  | JBool false => "False"
  | JInt n => str_int n
  | JFloat x => float_stub x
  | JStr s => "'" ^^ s ^^ "'"
  | JArr items =>
      "[" ^^ (fix go (l : list json) : string :=
                match l with
                | [] => EmptyString
                | x :: rest =>
                    match rest with
                    | [] => demo_str x
                    | _ => demo_str x ^^ ", " ^^ go rest
                    end
                end) items ^^ "]"
  | JObj members =>
      "{" ^^ (fix go (l : list (string * json)) : string :=
                match l with
                | [] => EmptyString
                | (k, x) :: rest =>
                    match rest with
                    | [] => "'" ^^ k ^^ "': " ^^ demo_str x
                    | _ => "'" ^^ k ^^ "': " ^^ demo_str x ^^ ", " ^^ go rest
                    end
                end) members ^^ "}"
  end.

Definition dumps_int (n : Z) : Result string :=
  if (n <? - 2 ^ 63) || (2 ^ 64 <=? n) then Raise OverflowError
  else Return (str_int n).

Fixpoint demo_dumps (v : json) : Result string :=
  match v with
  | JNull => Return "null"%string
  | JBool true => Return "true"%string
  | JBool false => Return "false"%string
  | JInt n => dumps_int n
  | JFloat x => Return (float_stub x)
  | JStr s => Return (dquote ^^ s ^^ dquote)
  | JArr items =>
      match (fix go (l : list json) : Result string :=
               match l with
               | [] => Return EmptyString
               | x :: rest =>
                   match demo_dumps x with
                   | Raise e => Raise e
                   | Return dx =>
                       match rest with
                       | [] => Return dx
                       | _ =>
                           match go rest with
                           | Raise e => Raise e
                           | Return dr => Return (dx ^^ "," ^^ dr)%string
                           end
                       end
                   end
               end) items with
      | Raise e => Raise e
      | Return inner => Return ("[" ^^ inner ^^ "]")%string
      end
  | JObj members =>
      match (fix go (l : list (string * json)) : Result string :=
               match l with
               | [] => Return EmptyString
               | (k, x) :: rest =>
                   match demo_dumps x with
                   | Raise e => Raise e
                   | Return dx =>
                       match rest with
                       | [] => Return (dquote ^^ k ^^ dquote ^^ ":" ^^ dx)%string
                       | _ =>
                           match go rest with
                           | Raise e => Raise e
                           | Return dr =>
                               Return (dquote ^^ k ^^ dquote ^^ ":" ^^ dx ^^ "," ^^ dr)%string
                           end
                       end
                   end
               end) members with
      | Raise e => Raise e
      | Return inner => Return ("{" ^^ inner ^^ "}")%string
      end
  end.

(** A client as [__init__] builds it from [api = "OpenAI"] and an empty
    [config]. *)
Definition demo_backend (strict : bool) (max_tries timeout : Z) : Backend :=
  {| _api := "OpenAI";
     _config := [];
     _strict := strict;
     _max_tries := max_tries;
     _timeout := timeout;
     _url := JStr "https://api.openai.com/v1/completions" |}.

Definition demo_state (strict : bool) (max_tries timeout : Z) : State :=
  {| self := demo_backend strict max_tries timeout; sent := [] |}.

(** An empty environment, a network that is down, and one that answers
    every request with [resp]. *)
Definition no_env : Environ := fun _ => None.

Definition net_down : Network := fun _ => Fails (ConnectionError "").

Definition net_replies (resp : json) : Network := fun _ => Json resp.

(** A computation that leaves the state as it found it. *)
Definition keeps_state {A : Type} (m : M State A) : Prop :=
  forall st, snd (m st) = st.

(** The state after [n] attempts of a call that started in [st]. *)
Definition after_attempts (req : Request) (n : nat) (st : State) : State :=
  {| self := self st; sent := sent st ++ repeat req n |}.

(** The state [st] with the [strict] flag of its client set to [flag]. *)
Definition set_strict (flag : bool) (st : State) : State :=
  {| self := {| _api := _api (self st);
                _config := _config (self st);
                _strict := flag;
                _max_tries := _max_tries (self st);
                _timeout := _timeout (self st);
                _url := _url (self st) |};
     sent := sent st |}.

(** [None], a boolean or a number: a value that has no length and that
    the [in] operator cannot search. *)
Definition is_scalar (v : json) : bool :=
  match v with
  | JNull | JBool _ | JInt _ | JFloat _ => true
  | _ => false
  end.

(** A network on which every request raises [e], and one on which the
    first [k] requests fail with a [ConnectionError] and the later ones are
    answered with [resp]. *)
Definition net_raises (e : exn) : Network := fun _ => Fails e.

Definition net_flaky (k : nat) (resp : json) : Network :=
  fun i => if Nat.ltb i k then Fails (ConnectionError "") else Json resp.

(** ** Runs of the model on the spec's examples *)
Example run_hello_world :
  fst (__call__ demo_dumps demo_str no_env
         (net_replies (JObj [("choices"%string,
                              JArr [JObj [("text"%string, JStr "Hi")];
                                    JObj [("text"%string, JStr "Earth")]])]))
         ["Hello"%string; "World"%string] (demo_state true 3 30))
  = Return [JStr "Hi"; JStr "Earth"].
Proof. reflexivity. Qed.

Example run_error_not_strict :
  fst (__call__ demo_dumps demo_str no_env
         (net_replies (JObj [("error"%string, JObj [("code"%string, JInt 500)])]))
         ["A"%string] (demo_state false 3 30))
  = Return [JStr ("{" ^^ dquote ^^ "error" ^^ dquote ^^ ":{" ^^ dquote ^^ "code"
                      ^^ dquote ^^ ":500}}")].
Proof. reflexivity. Qed.

Example run_error_strict :
  fst (__call__ demo_dumps demo_str no_env
         (net_replies (JObj [("error"%string, JObj [("code"%string, JInt 500)])]))
         ["A"%string] (demo_state true 3 30))
  = Raise (ValueError "API call failed: {'error': {'code': 500}}.").
Proof. reflexivity. Qed.

Example run_unserializable_error :
  fst (__call__ demo_dumps demo_str no_env
         (net_replies (JObj [("error"%string, JObj [("code"%string, JInt (2 ^ 64))])]))
         ["A"%string] (demo_state false 3 30))
  = Raise OverflowError.
Proof. reflexivity. Qed.

Example run_characters :
  characters ["a"%char; ascii_of_nat 195; ascii_of_nat 169; "b"%char]
  = [String "a" EmptyString;
     String (ascii_of_nat 195) (String (ascii_of_nat 169) EmptyString);
     String "b" EmptyString].
Proof. reflexivity. Qed.

Example run_init_unsupported :
  __init__ "Cohere" [] true 3 30 []
  = (Raise (ValueError "Cohere is not one of the supported APIs (('OpenAI',))."), []).
Proof. reflexivity. Qed.

Example run_down_one_try :
  fst (__call__ demo_dumps demo_str no_env net_down ["A"%string] (demo_state true 1 30))
  = Raise (KeyError "choices").
Proof. reflexivity. Qed.

Example run_down_zero_tries :
  fst (__call__ demo_dumps demo_str no_env net_down ["A"%string] (demo_state true 0 30))
  = Raise (ConnectionError
             ("OpenAI API could not be reached within 30 seconds in 0 attempts. "
                ^^ "Check your network connection and the availability of the OpenAI API.")).
Proof. reflexivity. Qed.

(** ** Facts about dictionaries *)
Module DictFacts.

Lemma contains_get k d :
  Dict.contains k d = true <-> exists v, Dict.get k d = Some v.
Proof.
  induction d as [|[k' v'] rest IH]; simpl.
  - split; [discriminate | intros [v H]; discriminate].
  - destruct (String.eqb k k'); simpl.
    + split; eauto.
    + exact IH.
Qed.

Lemma contains_false_get k d :
  Dict.contains k d = false <-> Dict.get k d = None.
Proof.
  induction d as [|[k' v'] rest IH]; simpl.
  - split; reflexivity.
  - destruct (String.eqb k k'); simpl.
    + split; discriminate.
    + exact IH.
Qed.

Lemma get_in_keys k d v : Dict.get k d = Some v -> In k (Dict.keys d).
Proof.
  induction d as [|[k' v'] rest IH]; simpl; [discriminate|].
  destruct (String.eqb_spec k k'); subst; auto.
Qed.

Lemma get_not_in_keys k d : ~ In k (Dict.keys d) -> Dict.get k d = None.
Proof.
  intros H. destruct (Dict.get k d) eqn:E; [|reflexivity].
  exfalso. eauto using get_in_keys.
Qed.

Lemma contains_remove k d : Dict.contains k (Dict.remove k d) = false.
Proof.
  induction d as [|[k' v'] rest IH]; simpl; [reflexivity|].
  destruct (String.eqb k k') eqn:E; simpl; [exact IH|].
  rewrite E. exact IH.
Qed.

Lemma get_remove_other k k' d :
  k <> k' -> Dict.get k' (Dict.remove k d) = Dict.get k' d.
Proof.
  intros Hne. induction d as [|[k0 v0] rest IH]; simpl; [reflexivity|].
  destruct (String.eqb_spec k k0); simpl.
  - subst k0. destruct (String.eqb_spec k' k); [congruence | exact IH].
  - destruct (String.eqb k' k0); [reflexivity | exact IH].
Qed.

Lemma remove_absent k d : Dict.contains k d = false -> Dict.remove k d = d.
Proof.
  induction d as [|[k' v'] rest IH]; simpl; [reflexivity|].
  destruct (String.eqb k k'); simpl; [discriminate|].
  intros H. now rewrite IH.
Qed.

Lemma keys_remove k d :
  Dict.keys (Dict.remove k d) = filter (fun k' => negb (String.eqb k k')) (Dict.keys d).
Proof.
  induction d as [|[k' v'] rest IH]; simpl; [reflexivity|].
  destruct (String.eqb k k'); simpl; now rewrite <- IH.
Qed.

Lemma wf_remove k d : Dict.wf d -> Dict.wf (Dict.remove k d).
Proof.
  unfold Dict.wf. rewrite keys_remove. apply NoDup_filter.
Qed.

Lemma get_set_same k v d : Dict.get k (Dict.set k v d) = Some v.
Proof.
  induction d as [|[k' v'] rest IH]; simpl.
  - now rewrite String.eqb_refl.
  - destruct (String.eqb k k') eqn:E; simpl; rewrite E; [reflexivity | exact IH].
Qed.

Lemma get_set_other k k' v d :
  k <> k' -> Dict.get k' (Dict.set k v d) = Dict.get k' d.
Proof.
  intros Hne. induction d as [|[k0 v0] rest IH]; simpl.
  - destruct (String.eqb_spec k' k); [congruence | reflexivity].
  - destruct (String.eqb_spec k k0); simpl.
    + subst k0. destruct (String.eqb_spec k' k); [congruence | reflexivity].
    + destruct (String.eqb k' k0); [reflexivity | exact IH].
Qed.

(** A lookup in [{**d, **extra}]: [extra] wins. *)
Lemma get_update k d extra :
  Dict.wf extra ->
  Dict.get k (Dict.update d extra)
  = match Dict.get k extra with
    | Some v => Some v
    | None => Dict.get k d
    end.
Proof.
  unfold Dict.update, Dict.wf.
  revert d. induction extra as [|[k0 v0] rest IH]; intros d Hwf; simpl.
  - reflexivity.
  - inversion Hwf as [|? ? Hnotin Hrest]; subst.
    rewrite (IH _ Hrest).
    destruct (String.eqb_spec k k0).
    + subst k0. rewrite (get_not_in_keys _ _ Hnotin). apply get_set_same.
    + destruct (Dict.get k rest); [reflexivity|].
      apply get_set_other. congruence.
Qed.

End DictFacts.

(** ** Facts about the monad and the Python operators *)

Lemma keeps_state_ret {A} (a : A) : keeps_state (ret a).
Proof. intros st; reflexivity. Qed.

Lemma keeps_state_raise {A} (e : exn) : keeps_state (@raise State A e).
Proof. intros st; reflexivity. Qed.

Lemma keeps_state_lift {A} (r : Result A) : keeps_state (lift r).
Proof. intros st; reflexivity. Qed.

Lemma keeps_state_gets {A} (f : State -> A) : keeps_state (gets f).
Proof. intros st; reflexivity. Qed.

Lemma keeps_state_bind {A B} (m : M State A) (k : A -> M State B) :
  keeps_state m -> (forall a, keeps_state (k a)) -> keeps_state (bind m k).
Proof.
  intros Hm Hk st. unfold bind.
  specialize (Hm st). destruct (m st) as [[a|e] st']; simpl in *; subst st'.
  - apply Hk.
  - reflexivity.
Qed.

Create HintDb frame.
#[local] Hint Resolve keeps_state_ret keeps_state_raise keeps_state_lift
  keeps_state_gets : frame.

Ltac frame_step :=
  first [ apply keeps_state_bind; [solve [auto with frame] | intros ?]
        | match goal with |- keeps_state (if ?c then _ else _) => destruct c end
        | solve [auto with frame] ].

Lemma last_nonempty_default {A} (x d d' : A) (l : list A) :
  last (x :: l) d = last (x :: l) d'.
Proof.
  revert x. induction l as [|y l IH]; intros x; [reflexivity|].
  change (last (y :: l) d = last (y :: l) d'). apply IH.
Qed.

Lemma last_cons_default {A} (x d : A) (l : list A) : last (x :: l) d = last l x.
Proof.
  destruct l as [|y l]; [reflexivity|].
  change (last (y :: l) d = last (y :: l) x). apply last_nonempty_default.
Qed.

Lemma range_length n : List.length (range n) = Z.to_nat n.
Proof. unfold range. now rewrite length_map, length_seq. Qed.

Lemma range_nth n k :
  (k < Z.to_nat n)%nat -> nth k (range n) 0 = Z.of_nat k.
Proof.
  intros Hk. unfold range.
  rewrite (nth_indep _ 0 (Z.of_nat 0)) by now rewrite length_map, length_seq.
  rewrite map_nth, seq_nth by assumption. reflexivity.
Qed.

Lemma range_last n : 1 <= n -> last (range n) 0 = n - 1.
Proof.
  intros Hn. unfold range.
  replace (Z.to_nat n) with (S (Z.to_nat (n - 1))) by lia.
  rewrite seq_S, map_app. cbn [map]. rewrite last_last. lia.
Qed.

Lemma range_nonpositive n : n <= 0 -> range n = [].
Proof.
  intros Hn. unfold range. now replace (Z.to_nat n) with 0%nat by lia.
Qed.

Lemma after_attempts_0 req st : after_attempts req 0 st = st.
Proof. destruct st. unfold after_attempts. simpl. now rewrite app_nil_r. Qed.

Lemma after_attempts_S req n st :
  after_attempts req n {| self := self st; sent := sent st ++ [req] |}
  = after_attempts req (S n) st.
Proof. unfold after_attempts. simpl. now rewrite <- app_assoc. Qed.

(** ** The retry loop *)
Section Loop.

Variable net : Network.
Variable headers : list (string * string).
Variable body : pydict.

Lemma query_api_step_fail i rest rt resp st e :
  net (List.length (sent st)) = Fails e ->
  is_ConnectionError e = true ->
  query_api net headers body (i :: rest) rt resp st
  = query_api net headers body rest i resp
      {| self := self st; sent := sent st ++ [attempt_request headers body (self st)] |}.
Proof.
  intros Hnet Hc. cbn [query_api].
  unfold bind, try_except, gets, requests_post, ret. cbn.
  rewrite Hnet, Hc. reflexivity.
Qed.

Lemma query_api_step_json i rest rt resp st r :
  net (List.length (sent st)) = Json r ->
  query_api net headers body (i :: rest) rt resp st
  = (Return (i, r),
     {| self := self st; sent := sent st ++ [attempt_request headers body (self st)] |}).
Proof.
  intros Hnet. cbn [query_api].
  unfold bind, try_except, gets, requests_post, ret. cbn.
  rewrite Hnet. reflexivity.
Qed.

Lemma query_api_step_raise i rest rt resp st e :
  net (List.length (sent st)) = Fails e ->
  is_ConnectionError e = false ->
  query_api net headers body (i :: rest) rt resp st
  = (Raise e,
     {| self := self st; sent := sent st ++ [attempt_request headers body (self st)] |}).
Proof.
  intros Hnet Hc. cbn [query_api].
  unfold bind, try_except, gets, requests_post, ret. cbn.
  rewrite Hnet, Hc. reflexivity.
Qed.

(** Every attempt fails with a [ConnectionError]: the loop runs to its
    end, [request_tries] is the last index tried and [responses] is
    untouched. *)
Lemma query_api_unreachable tries : forall rt resp st,
  (forall j, (j < List.length tries)%nat ->
     exists e, net (List.length (sent st) + j)%nat = Fails e /\ is_ConnectionError e = true) ->
  query_api net headers body tries rt resp st
  = (Return (last tries rt, resp),
     after_attempts (attempt_request headers body (self st)) (List.length tries) st).
Proof.
  induction tries as [|i rest IH]; intros rt resp st Hdown.
  - cbn. now rewrite after_attempts_0.
  - destruct (Hdown 0%nat) as [e [Hnet Hc]]; [cbn; lia|].
    rewrite Nat.add_0_r in Hnet.
    rewrite (query_api_step_fail _ _ _ _ _ _ Hnet Hc), IH.
    + cbn [self List.length]. rewrite after_attempts_S, last_cons_default.
      reflexivity.
    + intros j Hj. cbn [sent]. rewrite length_app. cbn [List.length].
      replace (List.length (sent st) + 1 + j)%nat
        with (List.length (sent st) + S j)%nat by lia.
      apply Hdown. cbn. lia.
Qed.

(** Attempt [k] is the first that does not fail with a
    [ConnectionError], and it is answered: the loop breaks there. *)
Lemma query_api_answered tries : forall k rt resp st r,
  (k < List.length tries)%nat ->
  (forall j, (j < k)%nat ->
     exists e, net (List.length (sent st) + j)%nat = Fails e /\ is_ConnectionError e = true) ->
  net (List.length (sent st) + k)%nat = Json r ->
  query_api net headers body tries rt resp st
  = (Return (nth k tries 0, r),
     after_attempts (attempt_request headers body (self st)) (S k) st).
Proof.
  induction tries as [|i rest IH]; intros k rt resp st r Hk Hdown Hnet.
  - cbn in Hk. lia.
  - destruct k as [|k].
    + rewrite Nat.add_0_r in Hnet.
      rewrite (query_api_step_json _ _ _ _ _ _ Hnet). reflexivity.
    + destruct (Hdown 0%nat) as [e [Hnet0 Hc]]; [lia|].
      rewrite Nat.add_0_r in Hnet0.
      rewrite (query_api_step_fail _ _ _ _ _ _ Hnet0 Hc).
      rewrite (IH k i resp _ r).
      * cbn [self nth]. now rewrite after_attempts_S.
      * cbn in Hk. lia.
      * intros j Hj. cbn [sent]. rewrite length_app. cbn [List.length].
        replace (List.length (sent st) + 1 + j)%nat
          with (List.length (sent st) + S j)%nat by lia.
        apply Hdown. lia.
      * cbn [sent]. rewrite length_app. cbn [List.length].
        replace (List.length (sent st) + 1 + k)%nat
          with (List.length (sent st) + S k)%nat by lia.
        exact Hnet.
Qed.

(** Attempt [k] is the first that does not fail with a
    [ConnectionError], and it raises another exception: the exception
    leaves the loop at once. *)
Lemma query_api_raises tries : forall k rt resp st e,
  (k < List.length tries)%nat ->
  (forall j, (j < k)%nat ->
     exists e', net (List.length (sent st) + j)%nat = Fails e' /\ is_ConnectionError e' = true) ->
  net (List.length (sent st) + k)%nat = Fails e ->
  is_ConnectionError e = false ->
  query_api net headers body tries rt resp st
  = (Raise e, after_attempts (attempt_request headers body (self st)) (S k) st).
Proof.
  induction tries as [|i rest IH]; intros k rt resp st e Hk Hdown Hnet He.
  - cbn in Hk. lia.
  - destruct k as [|k].
    + rewrite Nat.add_0_r in Hnet.
      rewrite (query_api_step_raise _ _ _ _ _ _ Hnet He). reflexivity.
    + destruct (Hdown 0%nat) as [e0 [Hnet0 Hc]]; [lia|].
      rewrite Nat.add_0_r in Hnet0.
      rewrite (query_api_step_fail _ _ _ _ _ _ Hnet0 Hc).
      rewrite (IH k i resp _ e).
      * cbn [self]. now rewrite after_attempts_S.
      * cbn in Hk. lia.
      * intros j Hj. cbn [sent]. rewrite length_app. cbn [List.length].
        replace (List.length (sent st) + 1 + j)%nat
          with (List.length (sent st) + S j)%nat by lia.
        apply Hdown. lia.
      * cbn [sent]. rewrite length_app. cbn [List.length].
        replace (List.length (sent st) + 1 + k)%nat
          with (List.length (sent st) + S k)%nat by lia.
        exact Hnet.
      * exact He.
Qed.

(** On any network the loop only appends copies of the one request to
    the log, at most one per index, and leaves the client alone. *)
Lemma query_api_log tries : forall rt resp st,
  exists n, (n <= List.length tries)%nat /\
    snd (query_api net headers body tries rt resp st)
    = after_attempts (attempt_request headers body (self st)) n st.
Proof.
  induction tries as [|i rest IH]; intros rt resp st.
  - exists 0%nat. split; [lia|]. cbn. now rewrite after_attempts_0.
  - destruct (net (List.length (sent st))) as [r|e] eqn:Hnet.
    + exists 1%nat. split; [cbn; lia|].
      rewrite (query_api_step_json _ _ _ _ _ _ Hnet). reflexivity.
    + destruct (is_ConnectionError e) eqn:Hc.
      * rewrite (query_api_step_fail _ _ _ _ _ _ Hnet Hc).
        destruct (IH i resp
                    {| self := self st;
                       sent := sent st ++ [attempt_request headers body (self st)] |})
          as [n [Hn Hlog]].
        exists (S n). split; [cbn; lia|].
        rewrite Hlog. cbn [self]. apply after_attempts_S.
      * exists 1%nat. split; [cbn; lia|].
        rewrite (query_api_step_raise _ _ _ _ _ _ Hnet Hc). reflexivity.
Qed.

End Loop.

(** ** Processing the response *)
Section Facts.

Variable json_dumps : json -> Result string.
Variable py_str : json -> string.

Lemma snd_combine {A B} (l : list A) (l' : list B) :
  List.length l' = List.length l -> map snd (combine l l') = l'.
Proof.
  revert l'. induction l as [|a l IH]; intros [|b l'] Hlen; cbn in *;
    try reflexivity; try discriminate.
  f_equal. apply IH. lia.
Qed.

(** [collect] appends to its accumulator what [outputs] lists, and
    leaves the state alone. *)
Lemma collect_outputs pairs : forall acc st,
  collect json_dumps pairs acc st
  = (match outputs json_dumps (map snd pairs) with
     | Return os => Return (acc ++ os)
     | Raise x => Raise x
     end, st).
Proof.
  induction pairs as [|[prompt response] rest IH]; intros acc st.
  - cbn. now rewrite app_nil_r.
  - cbn [collect map snd outputs]. unfold entry_output, bind, lift.
    destruct (py_contains "text" response) as [[|]|x]; cbv beta iota.
    + destruct (py_getitem response "text") as [t|x]; cbv beta iota;
        [|reflexivity].
      rewrite IH. destruct (outputs json_dumps (map snd rest)); [|reflexivity].
      now rewrite <- app_assoc.
    + destruct (json_dumps response) as [dumped|x]; cbv beta iota; [|reflexivity].
      rewrite IH. destruct (outputs json_dumps (map snd rest)); [|reflexivity].
      now rewrite <- app_assoc.
    + reflexivity.
Qed.

Lemma keeps_state_collect pairs acc : keeps_state (collect json_dumps pairs acc).
Proof. intros st. now rewrite collect_outputs. Qed.

Lemma keeps_state_process prompts responses :
  keeps_state (process_responses json_dumps py_str prompts responses).
Proof.
  unfold process_responses.
  repeat first [ apply keeps_state_collect | frame_step ].
Qed.

Lemma process_error_strict prompts members st :
  Dict.contains "error" members = true ->
  _strict (self st) = true ->
  process_responses json_dumps py_str prompts (JObj members) st
  = (Raise (ValueError ("API call failed: " ^^ py_str (JObj members) ^^ ".")), st).
Proof.
  intros Herr Hstrict.
  unfold process_responses, bind, lift, gets, raise, py_contains.
  rewrite Herr, Hstrict. reflexivity.
Qed.

Lemma process_error_lenient prompts members st :
  Dict.contains "error" members = true ->
  _strict (self st) = false ->
  process_responses json_dumps py_str prompts (JObj members) st
  = (match json_dumps (JObj members) with
     | Return dumped => Return (repeat (JStr dumped) (List.length prompts))
     | Raise e => Raise e
     end, st).
Proof.
  intros Herr Hstrict.
  unfold process_responses, bind, lift, gets, ret, py_contains.
  rewrite Herr, Hstrict. cbv beta iota.
  now destruct (json_dumps (JObj members)).
Qed.

(** An error-free response whose [choices] is an array of the right
    length: the result is [outputs] of the array, in either mode. *)
Lemma process_choices prompts members cs st :
  Dict.contains "error" members = false ->
  Dict.get "choices" members = Some (JArr cs) ->
  List.length cs = List.length prompts ->
  process_responses json_dumps py_str prompts (JObj members) st
  = (outputs json_dumps cs, st).
Proof.
  intros Herr Hch Hlen.
  unfold process_responses, bind, lift, gets, py_contains, py_getitem.
  rewrite Herr, Hch. cbv beta iota. unfold py_len, py_iter.
  rewrite Hlen, Nat.eqb_refl. cbv beta iota. cbn [negb].
  rewrite collect_outputs, snd_combine by assumption.
  now destruct (outputs json_dumps cs).
Qed.

(** An empty response object, as the loop leaves it when no attempt was
    answered: the lookup of [choices] raises. *)
Lemma process_empty prompts st :
  process_responses json_dumps py_str prompts (JObj []) st
  = (Raise (KeyError "choices"), st).
Proof. reflexivity. Qed.

(** *** What the loop over the choices yields *)

Lemma entry_output_text members text :
  Dict.get "text" members = Some text ->
  entry_output json_dumps (JObj members) = Return text.
Proof.
  intros Hget. unfold entry_output, py_contains, py_getitem.
  assert (Hin : Dict.contains "text" members = true)
    by (apply DictFacts.contains_get; eauto).
  now rewrite Hin, Hget.
Qed.

Lemma entry_output_no_text members :
  Dict.contains "text" members = false ->
  entry_output json_dumps (JObj members)
  = match json_dumps (JObj members) with
    | Return dumped => Return (JStr dumped)
    | Raise e => Raise e
    end.
Proof.
  intros Hin. unfold entry_output, py_contains. now rewrite Hin.
Qed.

(** An entry without a [text] field, when its iteration does not raise,
    yields its serialization. *)
Lemma entry_output_lacking e o :
  has_text_field e = false ->
  entry_output json_dumps e = Return o ->
  exists dumped, json_dumps e = Return dumped /\ o = JStr dumped.
Proof.
  intros Hno. unfold entry_output.
  destruct e as [| b | n | x | s | items | members];
    cbn [py_contains has_text_field] in *; try discriminate.
  - destruct (str_contains "text" s); cbn [py_getitem]; [discriminate|].
    destruct (json_dumps (JStr s)) as [dumped|x]; [|discriminate].
    intros H. injection H as <-. eauto.
  - destruct (existsb (is_str "text") items); cbn [py_getitem]; [discriminate|].
    destruct (json_dumps (JArr items)) as [dumped|x]; [|discriminate].
    intros H. injection H as <-. eauto.
  - rewrite Hno.
    destruct (json_dumps (JObj members)) as [dumped|x]; [|discriminate].
    intros H. injection H as <-. eauto.
Qed.

(** An entry whose iteration does not raise passes the tests of the
    iteration. *)
Lemma entry_output_ok e o :
  entry_output json_dumps e = Return o -> entry_ok e = true.
Proof.
  unfold entry_output.
  destruct e as [| b | n | x | s | items | members]; cbn [entry_ok py_contains];
    try discriminate.
  - destruct (str_contains "text" s); cbn [negb py_getitem];
      [discriminate | reflexivity].
  - destruct (existsb (is_str "text") items); cbn [negb py_getitem];
      [discriminate | reflexivity].
  - reflexivity.
Qed.

(** An entry with a [text] field yields without a serialization. *)
Lemma entry_output_has_text e :
  has_text_field e = true -> exists o, entry_output json_dumps e = Return o.
Proof.
  destruct e as [| b | n | x | s | items | members]; cbn [has_text_field];
    try discriminate.
  intros Hin. destruct (proj1 (DictFacts.contains_get _ _) Hin) as [v Hv].
  exists v. now apply entry_output_text.
Qed.

(** [entry_returns] is exactly the set of entries whose iteration does not
    raise. *)
Lemma entry_returns_iff e :
  entry_returns json_dumps e <-> exists o, entry_output json_dumps e = Return o.
Proof.
  split.
  - intros [Hok Hdump].
    destruct (has_text_field e) eqn:Htext; [now apply entry_output_has_text|].
    destruct (Hdump eq_refl) as [dumped Hd].
    exists (JStr dumped). unfold entry_output.
    destruct e as [| b | n | x | s | items | members];
      cbn [entry_ok has_text_field py_contains] in *; try discriminate.
    + destruct (str_contains "text" s); [discriminate|]. now rewrite Hd.
    + destruct (existsb (is_str "text") items); [discriminate|]. now rewrite Hd.
    + rewrite Htext. now rewrite Hd.
  - intros [o Ho]. split; [exact (entry_output_ok _ _ Ho)|].
    intros Hno. destruct (entry_output_lacking _ _ Hno Ho) as [dumped [Hd _]].
    eauto.
Qed.

Lemma is_object_entry_ok e : is_object e = true -> entry_ok e = true.
Proof. destruct e; cbn; congruence. Qed.

Lemma outputs_total entries :
  Forall (entry_returns json_dumps) entries ->
  exists os, outputs json_dumps entries = Return os.
Proof.
  induction 1 as [|e rest He _ IH]; cbn [outputs]; [eauto|].
  apply entry_returns_iff in He. destruct He as [o Ho]. destruct IH as [os Hos].
  rewrite Ho, Hos. eauto.
Qed.

Lemma outputs_raises entries :
  Exists (fun e => ~ entry_returns json_dumps e) entries ->
  exists x, outputs json_dumps entries = Raise x.
Proof.
  induction 1 as [e rest He | e rest _ IH]; cbn [outputs].
  - destruct (entry_output json_dumps e) as [o|x] eqn:Ho; [|eauto].
    exfalso. apply He. apply entry_returns_iff. eauto.
  - destruct (entry_output json_dumps e) as [o|x]; [|eauto].
    destruct IH as [x Hx]. rewrite Hx. eauto.
Qed.

(** The outputs are as many as the entries, and the [i]-th output is
    what the [i]-th entry yields. *)
Lemma outputs_pointwise entries : forall os,
  outputs json_dumps entries = Return os ->
  Forall2 (fun e o => entry_output json_dumps e = Return o) entries os.
Proof.
  induction entries as [|e rest IH]; intros os H; cbn [outputs] in H.
  - injection H as <-. constructor.
  - destruct (entry_output json_dumps e) as [o|x] eqn:Ho; [|discriminate].
    destruct (outputs json_dumps rest) as [os'|x]; [|discriminate].
    injection H as <-. constructor; auto.
Qed.

Lemma outputs_length entries os :
  outputs json_dumps entries = Return os -> List.length os = List.length entries.
Proof.
  intros H. apply outputs_pointwise in H.
  induction H; cbn; congruence.
Qed.

Lemma outputs_nth entries os i e :
  outputs json_dumps entries = Return os ->
  nth_error entries i = Some e ->
  exists o, nth_error os i = Some o /\ entry_output json_dumps e = Return o.
Proof.
  intros H. apply outputs_pointwise in H. revert i.
  induction H as [|e' o' rest os' Ho _ IH]; intros i Hi.
  - destruct i; discriminate.
  - destruct i as [|i]; cbn in *.
    + injection Hi as <-. eauto.
    + auto.
Qed.

End Facts.

(** ** The call operation *)
Section CallFacts.

Variable json_dumps : json -> Result string.
Variable py_str : json -> string.
Variable env : Environ.
Variable net : Network.
Variable prompts : list string.

(** [__call__] of a client whose API is ["OpenAI"] is [_call_openai]. *)
Lemma call_dispatch st :
  _api (self st) = "OpenAI"%string ->
  __call__ json_dumps py_str env net prompts st
  = _call_openai json_dumps py_str env net prompts st.
Proof.
  intros Hapi. unfold __call__, bind, gets, lift. rewrite Hapi. reflexivity.
Qed.

(** [__call__] of any other client raises [KeyError] at the lookup in
    [self._calls], before anything is posted. *)
Lemma call_no_handler st :
  _api (self st) <> "OpenAI"%string ->
  __call__ json_dumps py_str env net prompts st
  = (Raise (KeyError (_api (self st))), st).
Proof.
  intros Hapi. unfold __call__, bind, gets, lift, subscript, _calls. cbn [lookup].
  destruct (String.eqb_spec (_api (self st)) "OpenAI"); [contradiction | reflexivity].
Qed.

(** The response [resp] reaches the call at attempt [k]: the call
    continues with the processing of [resp]. *)
Lemma call_openai_answered st k resp :
  Z.of_nat k < _max_tries (self st) ->
  (forall j, (j < k)%nat ->
     exists e, net (List.length (sent st) + j)%nat = Fails e /\ is_ConnectionError e = true) ->
  net (List.length (sent st) + k)%nat = Json resp ->
  _call_openai json_dumps py_str env net prompts st
  = process_responses json_dumps py_str prompts resp
      (after_attempts (request_of env prompts (self st)) (S k) st).
Proof.
  intros Hk Hdown Hnet.
  unfold _call_openai, bind, gets. cbv beta iota zeta.
  rewrite (query_api_answered net _ _ _ k 0 (JObj []) st resp)
    by (rewrite ?range_length; auto; lia).
  cbv beta iota zeta. cbn [fst snd self after_attempts].
  rewrite range_nth by lia.
  destruct (Z.eqb_spec (Z.of_nat k) (_max_tries (self st))); [lia|].
  reflexivity.
Qed.

(** No attempt is answered, and at least one is made: the loop ends with
    [request_tries = max_tries - 1], the test [request_tries ==
    max_tries] fails, and the call goes on to process the empty
    response. *)
Lemma call_openai_unreachable st :
  1 <= _max_tries (self st) ->
  unreachable net (List.length (sent st)) (_max_tries (self st)) ->
  _call_openai json_dumps py_str env net prompts st
  = (Raise (KeyError "choices"),
     after_attempts (request_of env prompts (self st))
       (Z.to_nat (_max_tries (self st))) st).
Proof.
  intros Hn Hdown.
  unfold _call_openai, bind, gets. cbv beta iota zeta.
  rewrite (query_api_unreachable net _ _ _ 0 (JObj []) st).
  - cbv beta iota zeta. cbn [fst snd self after_attempts].
    rewrite range_last, range_length by assumption.
    destruct (Z.eqb_spec (_max_tries (self st) - 1) (_max_tries (self st))); [lia|].
    reflexivity.
  - intros j Hj. rewrite range_length in Hj. apply Hdown. lia.
Qed.

(** No attempt is allowed ([max_tries = 0]): nothing is posted, the test
    [request_tries == max_tries] holds, and the call raises the
    [ConnectionError]. *)
Lemma call_openai_zero_tries st :
  _max_tries (self st) = 0 ->
  _call_openai json_dumps py_str env net prompts st
  = (Raise (ConnectionError
              ("OpenAI API could not be reached within " ^^ str_int (_timeout (self st))
                 ^^ " seconds in " ^^ str_int 0
                 ^^ " attempts. Check your network connection and the availability "
                 ^^ "of the OpenAI API.")), st).
Proof.
  intros Hn.
  unfold _call_openai, bind, gets, raise. cbv beta iota zeta.
  rewrite Hn. change (range 0) with (@nil Z). cbn [query_api]. unfold ret.
  cbv beta iota zeta. cbn [fst snd]. rewrite Hn.
  change (0 =? 0) with true. cbv beta iota. rewrite Hn. reflexivity.
Qed.

(** On any network a call only appends copies of its one request to the
    log, at most [max_tries] of them, and leaves the client as it
    was. *)
Lemma call_openai_log st :
  exists n, (n <= Z.to_nat (_max_tries (self st)))%nat /\
    snd (_call_openai json_dumps py_str env net prompts st)
    = after_attempts (request_of env prompts (self st)) n st.
Proof.
  destruct (query_api_log net (request_headers env)
              (json_data prompts (_config (self st)))
              (range (_max_tries (self st))) 0 (JObj []) st) as [n [Hn Hlog]].
  rewrite range_length in Hn.
  exists n. split; [exact Hn|].
  unfold _call_openai, bind, gets, raise. cbv beta iota zeta.
  destruct (query_api net (request_headers env)
              (json_data prompts (_config (self st)))
              (range (_max_tries (self st))) 0 (JObj []) st)
    as [[[rt resp]|e] st'] eqn:Hq; cbn [snd fst] in *; subst st'.
  - destruct (rt =? _); [reflexivity|]. apply keeps_state_process.
  - reflexivity.
Qed.

Lemma call_log st :
  exists n, (n <= Z.to_nat (_max_tries (self st)))%nat /\
    snd (__call__ json_dumps py_str env net prompts st)
    = after_attempts (request_of env prompts (self st)) n st.
Proof.
  destruct (String.eqb_spec (_api (self st)) "OpenAI") as [Hapi|Hapi].
  - rewrite (call_dispatch _ Hapi). apply call_openai_log.
  - rewrite (call_no_handler _ Hapi). exists 0%nat. split; [lia|].
    cbn [snd]. now rewrite after_attempts_0.
Qed.

(** A call that is [answered] with [resp] returns or raises what the
    processing of [resp] does. *)
Lemma call_answered st resp :
  _api (self st) = "OpenAI"%string ->
  answered net (List.length (sent st)) (_max_tries (self st)) resp ->
  exists st',
    self st' = self st /\
    __call__ json_dumps py_str env net prompts st
    = process_responses json_dumps py_str prompts resp st'.
Proof.
  intros Hapi [k [Hk [Hdown Hnet]]].
  rewrite (call_dispatch _ Hapi), (call_openai_answered _ k resp Hk Hdown Hnet).
  eexists. split; [|reflexivity]. reflexivity.
Qed.

End CallFacts.

(** ** The constructor *)

Lemma init_unsupported api config strict max_tries timeout log :
  api <> "OpenAI"%string ->
  __init__ api config strict max_tries timeout log
  = (Raise (ValueError (api ^^ " is not one of the supported APIs (('OpenAI',)).")), log).
Proof.
  intros Hapi. unfold __init__, _SUPPORTED_APIS. cbn [existsb].
  destruct (String.eqb_spec api "OpenAI"); [contradiction | reflexivity].
Qed.

Lemma init_supported config strict max_tries timeout log :
  __init__ "OpenAI" config strict max_tries timeout log
  = (Return {| _api := "OpenAI";
               _config := Dict.remove "url" config;
               _strict := strict;
               _max_tries := max_tries;
               _timeout := timeout;
               _url := match Dict.get "url" config with
                       | Some u => u
                       | None => JStr "https://api.openai.com/v1/completions"
                       end |}, log).
Proof.
  unfold __init__, _SUPPORTED_APIS. cbn [existsb String.eqb Ascii.eqb Bool.eqb orb negb].
  destruct (Dict.contains "url" config) eqn:Hin.
  - destruct (proj1 (DictFacts.contains_get _ _) Hin) as [u Hu].
    unfold bind, lift, ret, Dict.pop. rewrite Hu. reflexivity.
  - rewrite (DictFacts.remove_absent _ _ Hin).
    rewrite (proj1 (DictFacts.contains_false_get _ _) Hin). reflexivity.
Qed.

(** A constructed client has the one supported API name. *)
Lemma init_api api config strict max_tries timeout log b log' :
  __init__ api config strict max_tries timeout log = (Return b, log') ->
  api = "OpenAI"%string /\ _api b = "OpenAI"%string /\ log' = log.
Proof.
  intros H. destruct (String.eqb_spec api "OpenAI") as [->|Hne].
  - rewrite init_supported in H. injection H as <- <-. auto.
  - rewrite (init_unsupported _ _ _ _ _ _ Hne) in H. discriminate.
Qed.

(** ** Networks of the examples *)

Lemma net_replies_answered resp start max_tries :
  0 < max_tries -> answered (net_replies resp) start max_tries resp.
Proof.
  intros H. exists 0%nat. split; [exact H|]. split; [|reflexivity].
  intros j Hj. inversion Hj.
Qed.

Lemma net_down_unreachable start max_tries : unreachable net_down start max_tries.
Proof. intros j _. exists (ConnectionError ""). split; reflexivity. Qed.

(** ** Exhausted retries, for every attempt count *)

(** X1.  With at least one attempt allowed and every attempt failing with a
    [ConnectionError], the call posts [max_tries] requests and then raises
    [KeyError] from the lookup of [choices] in the empty response. *)
Lemma call_unreachable json_dumps py_str env net prompts st :
  _api (self st) = "OpenAI"%string ->
  1 <= _max_tries (self st) ->
  unreachable net (List.length (sent st)) (_max_tries (self st)) ->
  __call__ json_dumps py_str env net prompts st
  = (Raise (KeyError "choices"),
     after_attempts (request_of env prompts (self st))
       (Z.to_nat (_max_tries (self st))) st).
Proof.
  intros Hapi Hn Hdown. rewrite call_dispatch by assumption.
  now apply call_openai_unreachable.
Qed.

(** X2.  With no attempt allowed the call raises the [ConnectionError] that
    names the timeout and the attempt count, and posts nothing. *)
Lemma call_zero_tries json_dumps py_str env net prompts st :
  _api (self st) = "OpenAI"%string ->
  _max_tries (self st) = 0 ->
  __call__ json_dumps py_str env net prompts st
  = (Raise (ConnectionError
              ("OpenAI API could not be reached within " ^^ str_int (_timeout (self st))
                 ^^ " seconds in " ^^ str_int 0
                 ^^ " attempts. Check your network connection and the availability "
                 ^^ "of the OpenAI API.")), st).
Proof.
  intros Hapi Hn. rewrite call_dispatch by assumption.
  now apply call_openai_zero_tries.
Qed.

(** * Properties of the client (C1 to C10) *)

(** C1, at a failing input.  A client with [max_tries = 1] whose one
    attempt fails with a [ConnectionError]: the loop ends with
    [request_tries = 0], the test [request_tries == self._max_tries]
    compares 0 with 1 and fails, so the connectivity error is not raised;
    the code under [# Process responses.] runs on the empty response and
    raises [KeyError] for [choices], after the one request was posted. *)
Theorem exhausted_retries_reach_validation :
  unreachable net_down 0 1 /\
  __call__ demo_dumps demo_str no_env net_down ["Hello"%string] (demo_state false 1 30)
  = (Raise (KeyError "choices"),
     {| self := demo_backend false 1 30;
        sent := [request_of no_env ["Hello"%string] (demo_backend false 1 30)] |}).
Proof.
  split.
  - apply net_down_unreachable.
  - reflexivity.
Qed.

(** C2.  A strict client that obtains a response object with the key
    [error] raises [ValueError], and the message carries the whole
    response as [str] prints it; no batch is returned. *)
Theorem strict_error_response_raises
    (json_dumps : json -> Result string) (py_str : json -> string)
    (env : Environ) (net : Network)
    (prompts : list string) (st : State) (members : pydict) :
  _api (self st) = "OpenAI"%string ->
  _strict (self st) = true ->
  answered net (List.length (sent st)) (_max_tries (self st)) (JObj members) ->
  Dict.contains "error" members = true ->
  fst (__call__ json_dumps py_str env net prompts st)
  = Raise (ValueError ("API call failed: " ^^ py_str (JObj members) ^^ ".")).
Proof.
  intros Hapi Hstrict Hans Herr.
  destruct (call_answered json_dumps py_str env net prompts st _ Hapi Hans)
    as [st' [Hself ->]].
  rewrite process_error_strict; [reflexivity | assumption | congruence].
Qed.

Lemma strict_error_response_raises_witness :
  fst (__call__ demo_dumps demo_str no_env
         (net_replies (JObj [("error"%string, JObj [("code"%string, JInt 500)])]))
         ["A"%string] (demo_state true 3 30))
  = Raise (ValueError ("API call failed: "
             ^^ demo_str (JObj [("error"%string, JObj [("code"%string, JInt 500)])])
             ^^ ".")).
Proof.
  apply (strict_error_response_raises demo_dumps demo_str no_env
           (net_replies (JObj [("error"%string, JObj [("code"%string, JInt 500)])]))
           ["A"%string] (demo_state true 3 30)
           [("error"%string, JObj [("code"%string, JInt 500)])]).
  - reflexivity.
  - reflexivity.
  - apply net_replies_answered. reflexivity.
  - reflexivity.
Defined.




(** C4, as stated, fails: the response [{"choices": [1]}] has no [error]
    key and its [choices] array has as many entries as there are prompts,
    but the test ["text" in response] on the entry [1] raises [TypeError],
    and the call returns no batch. *)
Lemma non_object_entry_raises :
  Dict.contains "error" [("choices"%string, JArr [JInt 1])] = false /\
  Dict.get "choices" [("choices"%string, JArr [JInt 1])] = Some (JArr [JInt 1]) /\
  List.length [JInt 1] = List.length ["A"%string] /\
  answered (net_replies (JObj [("choices"%string, JArr [JInt 1])])) 0 3
    (JObj [("choices"%string, JArr [JInt 1])]) /\
  fst (__call__ demo_dumps demo_str no_env
         (net_replies (JObj [("choices"%string, JArr [JInt 1])]))
         ["A"%string] (demo_state false 3 30))
  = Raise TypeError.
Proof.
  repeat split; try reflexivity.
  apply net_replies_answered. reflexivity.
Qed.

(** C4, amended.  A client that obtains a response object without the key
    [error], whose [choices] is an array with one entry per prompt, every
    entry being a JSON object, or a string or an array in which ["text"]
    does not occur, and every entry without a [text] field being one that
    [json_dumps] serializes ([entry_returns]), returns a batch of the
    length of the prompt batch, and the output at each position is what
    the entry at that position yields ([entry_output]). *)
Theorem matching_choices_return_in_order
    (json_dumps : json -> Result string) (py_str : json -> string)
    (env : Environ) (net : Network)
    (prompts : list string) (st : State) (members : pydict) (cs : list json) :
  _api (self st) = "OpenAI"%string ->
  answered net (List.length (sent st)) (_max_tries (self st)) (JObj members) ->
  Dict.contains "error" members = false ->
  Dict.get "choices" members = Some (JArr cs) ->
  List.length cs = List.length prompts ->
  Forall (entry_returns json_dumps) cs ->
  exists out,
    fst (__call__ json_dumps py_str env net prompts st) = Return out /\
    List.length out = List.length prompts /\
    forall i e, nth_error cs i = Some e ->
      exists o, nth_error out i = Some o /\ entry_output json_dumps e = Return o.
Proof.
  intros Hapi Hans Herr Hch Hlen Hok.
  destruct (call_answered json_dumps py_str env net prompts st _ Hapi Hans)
    as [st' [Hself ->]].
  rewrite (process_choices json_dumps py_str prompts members cs st' Herr Hch Hlen).
  destruct (outputs_total json_dumps cs Hok) as [out Hout].
  exists out. cbn [fst]. split; [exact Hout|]. split.
  - rewrite (outputs_length _ _ _ Hout). exact Hlen.
  - intros i e Hi. exact (outputs_nth _ _ _ _ _ Hout Hi).
Qed.

Lemma matching_choices_return_in_order_witness :
  exists out,
    fst (__call__ demo_dumps demo_str no_env
           (net_replies (JObj [("choices"%string,
                                JArr [JObj [("text"%string, JStr "Hi")];
                                      JObj [("index"%string, JInt 1)]])]))
           ["Hello"%string; "World"%string] (demo_state true 3 30)) = Return out /\
    List.length out = 2%nat /\
    forall i e,
      nth_error [JObj [("text"%string, JStr "Hi")]; JObj [("index"%string, JInt 1)]] i
      = Some e ->
      exists o, nth_error out i = Some o /\ entry_output demo_dumps e = Return o.
Proof.
  apply (matching_choices_return_in_order demo_dumps demo_str no_env
           (net_replies (JObj [("choices"%string,
                                JArr [JObj [("text"%string, JStr "Hi")];
                                      JObj [("index"%string, JInt 1)]])]))
           ["Hello"%string; "World"%string] (demo_state true 3 30)
           [("choices"%string,
             JArr [JObj [("text"%string, JStr "Hi")]; JObj [("index"%string, JInt 1)]])]
           [JObj [("text"%string, JStr "Hi")]; JObj [("index"%string, JInt 1)]]).
  - reflexivity.
  - apply net_replies_answered. reflexivity.
  - reflexivity.
  - reflexivity.
  - reflexivity.
  - repeat constructor; cbn; try discriminate; eauto.
Defined.

(** C5.  In an error-free response whose [choices] array has one entry per
    prompt, an entry that is an object with a [text] field gives, at its
    position of every batch the call returns, the value of that field
    itself; and the call does return a batch whenever no entry makes the
    loop raise: every entry passes the tests of the loop, and every entry
    without a [text] field is one that [json_dumps] serializes
    ([entry_returns]). *)
Theorem text_entry_is_output
    (json_dumps : json -> Result string) (py_str : json -> string)
    (env : Environ) (net : Network)
    (prompts : list string) (st : State) (members : pydict) (cs : list json) :
  _api (self st) = "OpenAI"%string ->
  answered net (List.length (sent st)) (_max_tries (self st)) (JObj members) ->
  Dict.contains "error" members = false ->
  Dict.get "choices" members = Some (JArr cs) ->
  List.length cs = List.length prompts ->
  (forall out i entry text,
     fst (__call__ json_dumps py_str env net prompts st) = Return out ->
     nth_error cs i = Some (JObj entry) ->
     Dict.get "text" entry = Some text ->
     nth_error out i = Some text) /\
  (Forall (entry_returns json_dumps) cs ->
   exists out, fst (__call__ json_dumps py_str env net prompts st) = Return out).
Proof.
  intros Hapi Hans Herr Hch Hlen.
  destruct (call_answered json_dumps py_str env net prompts st _ Hapi Hans)
    as [st' [Hself ->]].
  rewrite (process_choices json_dumps py_str prompts members cs st' Herr Hch Hlen).
  cbn [fst]. split.
  - intros out i entry text Hout Hi Htext.
    destruct (outputs_nth _ _ _ _ _ Hout Hi) as [o [Ho Hentry]].
    rewrite (entry_output_text _ _ _ Htext) in Hentry. congruence.
  - apply outputs_total.
Qed.

Lemma text_entry_is_output_witness :
  exists out,
    fst (__call__ demo_dumps demo_str no_env
           (net_replies (JObj [("choices"%string,
                                JArr [JObj [("text"%string, JStr "Hi")];
                                      JObj [("text"%string, JStr "Earth")]])]))
           ["Hello"%string; "World"%string] (demo_state true 3 30)) = Return out /\
    nth_error out 0 = Some (JStr "Hi") /\
    nth_error out 1 = Some (JStr "Earth").
Proof.
  destruct (text_entry_is_output demo_dumps demo_str no_env
              (net_replies (JObj [("choices"%string,
                                   JArr [JObj [("text"%string, JStr "Hi")];
                                         JObj [("text"%string, JStr "Earth")]])]))
              ["Hello"%string; "World"%string] (demo_state true 3 30)
              [("choices"%string,
                JArr [JObj [("text"%string, JStr "Hi")];
                      JObj [("text"%string, JStr "Earth")]])]
              [JObj [("text"%string, JStr "Hi")]; JObj [("text"%string, JStr "Earth")]]
              eq_refl
              (net_replies_answered _ 0%nat 3 eq_refl)
              eq_refl eq_refl eq_refl) as [Hat Hreturns].
  destruct Hreturns as [out Hout]; [repeat constructor; cbn; discriminate|].
  exists out. split; [exact Hout|]. split.
  - apply (Hat out 0%nat [("text"%string, JStr "Hi")] (JStr "Hi") Hout); reflexivity.
  - apply (Hat out 1%nat [("text"%string, JStr "Earth")] (JStr "Earth") Hout); reflexivity.
Defined.

(** C6, as stated, fails: in the response
    [{"choices": [{"index": 2**64}]}], error-free and with one entry for
    the one prompt, the entry is an object without a [text] field, but
    [json_dumps] raises [OverflowError] on it, and the call raises it in
    strict mode and otherwise; there is no output element. *)
Lemma unserializable_entry_raises :
  has_text_field (JObj [("index"%string, JInt (2 ^ 64))]) = false /\
  Dict.contains "error"
    [("choices"%string, JArr [JObj [("index"%string, JInt (2 ^ 64))]])] = false /\
  answered (net_replies (JObj [("choices"%string, JArr [JObj [("index"%string, JInt (2 ^ 64))]])])) 0 3
    (JObj [("choices"%string, JArr [JObj [("index"%string, JInt (2 ^ 64))]])]) /\
  fst (__call__ demo_dumps demo_str no_env
         (net_replies (JObj [("choices"%string, JArr [JObj [("index"%string, JInt (2 ^ 64))]])]))
         ["A"%string] (demo_state false 3 30))
  = Raise OverflowError /\
  fst (__call__ demo_dumps demo_str no_env
         (net_replies (JObj [("choices"%string, JArr [JObj [("index"%string, JInt (2 ^ 64))]])]))
         ["A"%string] (demo_state true 3 30))
  = Raise OverflowError.
Proof.
  repeat split; try reflexivity.
  apply net_replies_answered. reflexivity.
Qed.

(** C6, amended.  In an error-free response whose [choices] array has one
    entry per prompt and in which no entry makes the loop raise (every
    entry is a JSON object, or a string or an array in which ["text"]
    does not occur, and every entry without a [text] field is one that
    [json_dumps] serializes), the call returns a batch in which, at the
    position of every entry without a [text] field, stands the JSON
    serialization of the whole entry.  The client is arbitrary: this holds
    whether its [strict] flag is set or not. *)
Theorem entry_without_text_is_serialized
    (json_dumps : json -> Result string) (py_str : json -> string)
    (env : Environ) (net : Network)
    (prompts : list string) (st : State) (members : pydict) (cs : list json) :
  _api (self st) = "OpenAI"%string ->
  answered net (List.length (sent st)) (_max_tries (self st)) (JObj members) ->
  Dict.contains "error" members = false ->
  Dict.get "choices" members = Some (JArr cs) ->
  List.length cs = List.length prompts ->
  Forall (entry_returns json_dumps) cs ->
  exists out,
    fst (__call__ json_dumps py_str env net prompts st) = Return out /\
    forall i e,
      nth_error cs i = Some e ->
      has_text_field e = false ->
      exists dumped,
        json_dumps e = Return dumped /\ nth_error out i = Some (JStr dumped).
Proof.
  intros Hapi Hans Herr Hch Hlen Hok.
  destruct (call_answered json_dumps py_str env net prompts st _ Hapi Hans)
    as [st' [Hself ->]].
  rewrite (process_choices json_dumps py_str prompts members cs st' Herr Hch Hlen).
  destruct (outputs_total json_dumps cs Hok) as [out Hout].
  exists out. cbn [fst]. split; [exact Hout|].
  intros i e Hi Hno.
  destruct (outputs_nth _ _ _ _ _ Hout Hi) as [o [Ho Hentry]].
  destruct (entry_output_lacking _ _ _ Hno Hentry) as [dumped [Hd ->]].
  eauto.
Qed.

Lemma entry_without_text_is_serialized_witness :
  exists out,
    fst (__call__ demo_dumps demo_str no_env
           (net_replies (JObj [("choices"%string,
                                JArr [JObj [("text"%string, JStr "Hi")];
                                      JObj [("index"%string, JInt 1)]])]))
           ["Hello"%string; "World"%string] (demo_state false 3 30)) = Return out /\
    forall i e,
      nth_error [JObj [("text"%string, JStr "Hi")]; JObj [("index"%string, JInt 1)]] i
      = Some e ->
      has_text_field e = false ->
      exists dumped,
        demo_dumps e = Return dumped /\ nth_error out i = Some (JStr dumped).
Proof.
  apply (entry_without_text_is_serialized demo_dumps demo_str no_env
           (net_replies (JObj [("choices"%string,
                                JArr [JObj [("text"%string, JStr "Hi")];
                                      JObj [("index"%string, JInt 1)]])]))
           ["Hello"%string; "World"%string] (demo_state false 3 30)
           [("choices"%string,
             JArr [JObj [("text"%string, JStr "Hi")]; JObj [("index"%string, JInt 1)]])]
           [JObj [("text"%string, JStr "Hi")]; JObj [("index"%string, JInt 1)]]).
  - reflexivity.
  - apply net_replies_answered. reflexivity.
  - reflexivity.
  - reflexivity.
  - reflexivity.
  - repeat constructor; cbn; try discriminate; eauto.
Defined.

(** C7.  The constructor called with an API name other than ["OpenAI"]
    raises [ValueError] with a message that starts with that name, and the
    log of requests is as before; called with ["OpenAI"] it returns a
    client, and the log is as before as well. *)
Theorem init_checks_api
    (api : string) (config : pydict) (strict : bool) (max_tries timeout : Z)
    (log : list Request) :
  (api <> "OpenAI"%string ->
   __init__ api config strict max_tries timeout log
   = (Raise (ValueError (api ^^ " is not one of the supported APIs (('OpenAI',)).")),
      log)) /\
  (api = "OpenAI"%string ->
   exists b, __init__ api config strict max_tries timeout log = (Return b, log)).
Proof.
  split.
  - apply init_unsupported.
  - intros ->. rewrite init_supported. eauto.
Qed.

Lemma init_checks_api_witness :
  __init__ "Cohere" [] true 3 30 []
  = (Raise (ValueError "Cohere is not one of the supported APIs (('OpenAI',))."), []) /\
  exists b, __init__ "OpenAI" [] true 3 30 [] = (Return b, []).
Proof.
  split.
  - apply (proj1 (init_checks_api "Cohere" [] true 3 30 [])). discriminate.
  - apply (proj2 (init_checks_api "OpenAI" [] true 3 30 [])). reflexivity.
Defined.

(** C8.  A client built from a configuration with the key ["url"] has that
    value as its URL and the configuration without the key; built from one
    without, it has the default URL of the API and the configuration as it
    was.  Every request that a call of the client posts goes to that URL,
    and its body is [{"prompt": prompts}] merged with the configuration
    that is left: a key of the configuration has the configured value, the
    key ["prompt"] has the prompts unless it is configured, ["url"] and
    every other key are absent. *)
Theorem init_resolves_url_and_body
    (api : string) (config : pydict) (strict : bool) (max_tries timeout : Z)
    (log log' : list Request) (b : Backend) :
  Dict.wf config ->
  __init__ api config strict max_tries timeout log = (Return b, log') ->
  (Dict.contains "url" config = true ->
   exists u, Dict.get "url" config = Some u /\ _url b = u /\
             _config b = Dict.remove "url" config) /\
  (Dict.contains "url" config = false ->
   _url b = JStr "https://api.openai.com/v1/completions" /\ _config b = config) /\
  Dict.contains "url" (_config b) = false /\
  (forall json_dumps py_str env net prompts sent0,
     exists n,
       sent (snd (__call__ json_dumps py_str env net prompts
                    {| self := b; sent := sent0 |}))
       = sent0 ++ repeat (request_of env prompts b) n) /\
  (forall env prompts,
     req_url (request_of env prompts b) = _url b /\
     req_json (request_of env prompts b) = json_data prompts (_config b)) /\
  (forall prompts k,
     Dict.get k (json_data prompts (_config b))
     = match Dict.get k (_config b) with
       | Some v => Some v
       | None => if String.eqb k "prompt" then Some (JArr (map JStr prompts)) else None
       end).
Proof.
  intros Hwf Hinit.
  destruct (init_api _ _ _ _ _ _ _ _ Hinit) as [-> [_ ->]].
  rewrite init_supported in Hinit. injection Hinit as <-. cbn [_url _config].
  split; [|split; [|split; [|split; [|split]]]].
  - intros Hin. destruct (proj1 (DictFacts.contains_get _ _) Hin) as [u Hu].
    exists u. rewrite Hu. auto.
  - intros Hout. split.
    + apply DictFacts.contains_false_get in Hout. now rewrite Hout.
    + now apply DictFacts.remove_absent.
  - apply DictFacts.contains_remove.
  - intros json_dumps py_str env net prompts sent0.
    destruct (call_log json_dumps py_str env net prompts
                {| self := {| _api := "OpenAI";
                              _config := Dict.remove "url" config;
                              _strict := strict;
                              _max_tries := max_tries;
                              _timeout := timeout;
                              _url := match Dict.get "url" config with
                                      | Some u => u
                                      | None => JStr "https://api.openai.com/v1/completions"
                                      end |};
                   sent := sent0 |}) as [n [_ Hlog]].
    exists n. rewrite Hlog. reflexivity.
  - intros env prompts. split; reflexivity.
  - intros prompts k. unfold json_data.
    rewrite DictFacts.get_update by now apply DictFacts.wf_remove.
    destruct (Dict.get k (Dict.remove "url" config)); reflexivity.
Qed.

Lemma init_resolves_url_and_body_witness :
  exists b,
    __init__ "OpenAI"
      [("url"%string, JStr "http://localhost:8080/v1/completions");
       ("model"%string, JStr "ada")] true 3 30 [] = (Return b, []) /\
    _url b = JStr "http://localhost:8080/v1/completions" /\
    Dict.contains "url" (_config b) = false /\
    Dict.get "model" (json_data ["Hi"%string] (_config b)) = Some (JStr "ada") /\
    Dict.get "prompt" (json_data ["Hi"%string] (_config b)) = Some (JArr [JStr "Hi"]) /\
    Dict.get "url" (json_data ["Hi"%string] (_config b)) = None.
Proof.
  eexists. split; [reflexivity|].
  assert (Hwf : Dict.wf [("url"%string, JStr "http://localhost:8080/v1/completions");
                         ("model"%string, JStr "ada")]).
  { unfold Dict.wf. cbn. constructor.
    - cbn. intros [H|[]]. discriminate.
    - constructor; [cbn; tauto | constructor]. }
  destruct (init_resolves_url_and_body "OpenAI"
              [("url"%string, JStr "http://localhost:8080/v1/completions");
               ("model"%string, JStr "ada")] true 3 30 [] [] _ Hwf eq_refl)
    as (Hurl & _ & Hgone & _ & _ & Hbody).
  destruct (Hurl eq_refl) as [u [Hu [Hb _]]].
  cbn in Hu. injection Hu as <-.
  split; [exact Hb|]. split; [exact Hgone|].
  rewrite !Hbody. repeat split; reflexivity.
Defined.

(** C9.  Whatever the prompts, the environment and the network are, and
    whether the call returns or raises, the client after a call is the
    client before it: same API name, configuration, strict flag,
    [max_tries], timeout and URL. *)
Theorem call_keeps_configuration
    (json_dumps : json -> Result string) (py_str : json -> string)
    (env : Environ) (net : Network)
    (prompts : list string) (st : State) :
  self (snd (__call__ json_dumps py_str env net prompts st)) = self st.
Proof.
  destruct (call_log json_dumps py_str env net prompts st) as [n [_ Hlog]].
  rewrite Hlog. reflexivity.
Qed.

(** C10.  When the configuration of the client has the key ["prompt"],
    the body of every request that a call posts has the configured value
    under ["prompt"], whatever the prompts passed to the call are. *)
Theorem configured_prompt_overrides
    (json_dumps : json -> Result string) (py_str : json -> string)
    (env : Environ) (net : Network)
    (prompts : list string) (st : State) (v : json) :
  Dict.wf (_config (self st)) ->
  Dict.get "prompt" (_config (self st)) = Some v ->
  Dict.get "prompt" (json_data prompts (_config (self st))) = Some v /\
  forall r,
    In r (sent (snd (__call__ json_dumps py_str env net prompts st))) ->
    In r (sent st) \/ Dict.get "prompt" (req_json r) = Some v.
Proof.
  intros Hwf Hget.
  assert (Hbody : Dict.get "prompt" (json_data prompts (_config (self st))) = Some v).
  { unfold json_data. rewrite DictFacts.get_update by assumption. now rewrite Hget. }
  split; [exact Hbody|].
  intros r Hr.
  destruct (call_log json_dumps py_str env net prompts st) as [n [_ Hlog]].
  rewrite Hlog in Hr. cbn [sent after_attempts] in Hr.
  apply in_app_or in Hr. destruct Hr as [Hr|Hr]; [now left|].
  right. apply repeat_spec in Hr. subst r. exact Hbody.
Qed.

Lemma configured_prompt_overrides_witness :
  Dict.get "prompt"
    (json_data ["Hello"%string; "World"%string] [("prompt"%string, JStr "fixed")])
  = Some (JStr "fixed") /\
  forall r,
    In r (sent (snd (__call__ demo_dumps demo_str no_env net_down
                       ["Hello"%string; "World"%string]
                       {| self := {| _api := "OpenAI";
                                     _config := [("prompt"%string, JStr "fixed")];
                                     _strict := true;
                                     _max_tries := 2;
                                     _timeout := 30;
                                     _url := JStr "https://api.openai.com/v1/completions" |};
                          sent := [] |}))) ->
    In r [] \/ Dict.get "prompt" (req_json r) = Some (JStr "fixed").
Proof.
  apply (configured_prompt_overrides demo_dumps demo_str no_env net_down
           ["Hello"%string; "World"%string]
           {| self := {| _api := "OpenAI";
                         _config := [("prompt"%string, JStr "fixed")];
                         _strict := true;
                         _max_tries := 2;
                         _timeout := 30;
                         _url := JStr "https://api.openai.com/v1/completions" |};
              sent := [] |}
           (JStr "fixed")).
  - unfold Dict.wf. cbn. constructor; [cbn; tauto | constructor].
  - reflexivity.
Defined.

(** * Further properties of the client (X1 to X15) *)

Lemma net_flaky_fails k resp j :
  (j < k)%nat ->
  exists e, net_flaky k resp (0 + j)%nat = Fails e /\ is_ConnectionError e = true.
Proof.
  intros Hj. exists (ConnectionError ""). unfold net_flaky. cbn [Nat.add].
  destruct (Nat.ltb_spec j k); [split; reflexivity | lia].
Qed.

Lemma net_flaky_answers k resp : net_flaky k resp (0 + k)%nat = Json resp.
Proof. unfold net_flaky. cbn [Nat.add]. now rewrite Nat.ltb_irrefl. Qed.

Lemma call_unreachable_witness :
  __call__ demo_dumps demo_str no_env net_down ["A"%string; "B"%string]
    (demo_state true 3 30)
  = (Raise (KeyError "choices"),
     after_attempts
       (request_of no_env ["A"%string; "B"%string] (demo_backend true 3 30))
       (Z.to_nat 3) (demo_state true 3 30)).
Proof.
  apply (call_unreachable demo_dumps demo_str no_env net_down
           ["A"%string; "B"%string] (demo_state true 3 30)).
  - reflexivity.
  - cbn. discriminate.
  - apply net_down_unreachable.
Defined.

Lemma call_zero_tries_witness :
  __call__ demo_dumps demo_str no_env (net_replies (JObj [])) ["A"%string]
    (demo_state true 0 30)
  = (Raise (ConnectionError
              ("OpenAI API could not be reached within " ^^ str_int 30
                 ^^ " seconds in " ^^ str_int 0
                 ^^ " attempts. Check your network connection and the availability "
                 ^^ "of the OpenAI API.")), demo_state true 0 30).
Proof.
  apply (call_zero_tries demo_dumps demo_str no_env (net_replies (JObj []))
           ["A"%string] (demo_state true 0 30)); reflexivity.
Defined.

(** X3.  A negative [max_tries]: the range is empty, [request_tries]
    keeps its initial 0, which differs from [max_tries], so no
    [ConnectionError] is raised; nothing is posted and the call raises
    [KeyError] from the lookup of [choices] in the empty response. *)
Theorem negative_tries_raise_key_error
    (json_dumps : json -> Result string) (py_str : json -> string)
    (env : Environ) (net : Network)
    (prompts : list string) (st : State) :
  _api (self st) = "OpenAI"%string ->
  _max_tries (self st) < 0 ->
  __call__ json_dumps py_str env net prompts st = (Raise (KeyError "choices"), st).
Proof.
  intros Hapi Hn. rewrite call_dispatch by assumption.
  unfold _call_openai, bind, gets. cbv beta iota zeta.
  rewrite range_nonpositive by lia. cbn [query_api]. unfold ret.
  cbv beta iota zeta. cbn [fst snd].
  destruct (Z.eqb_spec 0 (_max_tries (self st))); [lia|].
  apply process_empty.
Qed.

Lemma negative_tries_raise_key_error_witness :
  __call__ demo_dumps demo_str no_env (net_replies (JObj [])) ["A"%string]
    (demo_state true (-1) 30)
  = (Raise (KeyError "choices"), demo_state true (-1) 30).
Proof.
  apply (negative_tries_raise_key_error demo_dumps demo_str no_env
           (net_replies (JObj [])) ["A"%string] (demo_state true (-1) 30));
    reflexivity.
Defined.

(** X4.  An exception other than [ConnectionError] raised by an attempt
    within the allowed ones, every earlier attempt having failed with a
    [ConnectionError], leaves the call at once: it is the exception the
    call raises, and no further request is posted. *)
Theorem other_exception_is_not_retried
    (json_dumps : json -> Result string) (py_str : json -> string)
    (env : Environ) (net : Network)
    (prompts : list string) (st : State) (k : nat) (e : exn) :
  _api (self st) = "OpenAI"%string ->
  Z.of_nat k < _max_tries (self st) ->
  (forall j, (j < k)%nat ->
     exists e', net (List.length (sent st) + j)%nat = Fails e' /\
                is_ConnectionError e' = true) ->
  net (List.length (sent st) + k)%nat = Fails e ->
  is_ConnectionError e = false ->
  __call__ json_dumps py_str env net prompts st
  = (Raise e, after_attempts (request_of env prompts (self st)) (S k) st).
Proof.
  intros Hapi Hk Hdown Hnet He. rewrite call_dispatch by assumption.
  unfold _call_openai, bind, gets. cbv beta iota zeta.
  rewrite (query_api_raises net _ _ _ k 0 (JObj []) st e)
    by (rewrite ?range_length; auto; lia).
  reflexivity.
Qed.

Lemma other_exception_is_not_retried_witness :
  __call__ demo_dumps demo_str no_env (net_raises (OtherError "Timeout"))
    ["A"%string] (demo_state true 3 30)
  = (Raise (OtherError "Timeout"),
     after_attempts (request_of no_env ["A"%string] (demo_backend true 3 30)) 1
       (demo_state true 3 30)).
Proof.
  apply (other_exception_is_not_retried demo_dumps demo_str no_env
           (net_raises (OtherError "Timeout")) ["A"%string] (demo_state true 3 30)
           0%nat (OtherError "Timeout")).
  - reflexivity.
  - reflexivity.
  - intros j Hj. inversion Hj.
  - reflexivity.
  - reflexivity.
Defined.

(** X5.  When attempt [k] is the first that is answered, the call has
    posted [k + 1] requests when it ends, whether the processing of the
    response returns or raises: the loop stops at the first answer. *)
Theorem retries_stop_at_first_answer
    (json_dumps : json -> Result string) (py_str : json -> string)
    (env : Environ) (net : Network)
    (prompts : list string) (st : State) (k : nat) (resp : json) :
  _api (self st) = "OpenAI"%string ->
  Z.of_nat k < _max_tries (self st) ->
  (forall j, (j < k)%nat ->
     exists e, net (List.length (sent st) + j)%nat = Fails e /\
               is_ConnectionError e = true) ->
  net (List.length (sent st) + k)%nat = Json resp ->
  snd (__call__ json_dumps py_str env net prompts st)
  = after_attempts (request_of env prompts (self st)) (S k) st.
Proof.
  intros Hapi Hk Hdown Hnet.
  rewrite call_dispatch by assumption.
  rewrite (call_openai_answered json_dumps py_str env net prompts st k resp Hk Hdown Hnet).
  apply keeps_state_process.
Qed.

Lemma retries_stop_at_first_answer_witness :
  snd (__call__ demo_dumps demo_str no_env
         (net_flaky 2 (JObj [("choices"%string, JArr [JObj [("text"%string, JStr "Hi")]])]))
         ["A"%string] (demo_state true 5 30))
  = after_attempts (request_of no_env ["A"%string] (demo_backend true 5 30)) 3
      (demo_state true 5 30).
Proof.
  apply (retries_stop_at_first_answer demo_dumps demo_str no_env
           (net_flaky 2 (JObj [("choices"%string, JArr [JObj [("text"%string, JStr "Hi")]])]))
           ["A"%string] (demo_state true 5 30) 2%nat
           (JObj [("choices"%string, JArr [JObj [("text"%string, JStr "Hi")]])])).
  - reflexivity.
  - reflexivity.
  - apply net_flaky_fails.
  - apply net_flaky_answers.
Defined.

(** X6.  On every network a call posts at most [max_tries] requests (none
    when [max_tries] is not positive), and each is the same request: to
    the client's URL, with the client's timeout, the JSON content type,
    the bearer token of the environment (empty when the variable is
    unset) and the body built from the prompts and the configuration. *)
Theorem call_posts_at_most_max_tries
    (json_dumps : json -> Result string) (py_str : json -> string)
    (env : Environ) (net : Network)
    (prompts : list string) (st : State) :
  exists n,
    (n <= Z.to_nat (_max_tries (self st)))%nat /\
    sent (snd (__call__ json_dumps py_str env net prompts st))
    = sent st ++ repeat {| req_url := _url (self st);
                           req_headers :=
                             [("Content-Type"%string, "application/json"%string);
                              ("Authorization"%string,
                               "Bearer " ^^ match env "OPENAI_API_KEY"%string with
                                            | Some key => key
                                            | None => EmptyString
                                            end)];
                           req_json := json_data prompts (_config (self st));
                           req_timeout := _timeout (self st) |} n.
Proof.
  destruct (call_log json_dumps py_str env net prompts st) as [n [Hn Hlog]].
  exists n. split; [exact Hn|]. rewrite Hlog. reflexivity.
Qed.

(** The processing of a response that is not on the error path reads
    nothing of the state. *)
Lemma process_without_error_ignores_state
    (json_dumps : json -> Result string) (py_str : json -> string)
    (prompts : list string) (resp : json)
    (st1 st2 : State) :
  py_contains "error" resp <> Return true ->
  fst (process_responses json_dumps py_str prompts resp st1)
  = fst (process_responses json_dumps py_str prompts resp st2).
Proof.
  intros Hno. unfold process_responses, bind, lift.
  destruct (py_contains "error" resp) as [[|]|x]; [congruence | | reflexivity].
  destruct (py_getitem resp "choices") as [choices|x]; [|reflexivity].
  destruct (py_len choices) as [n|x]; [|reflexivity].
  destruct (negb (Nat.eqb n (List.length prompts))); [reflexivity|].
  destruct (py_iter choices) as [entries|x]; [|reflexivity].
  now rewrite !collect_outputs.
Qed.

(** X7.  An error-free response whose [choices] array has not as many
    entries as there are prompts makes the call raise [AssertionError],
    before any entry is looked at. *)
Theorem length_mismatch_raises_assertion
    (json_dumps : json -> Result string) (py_str : json -> string)
    (env : Environ) (net : Network)
    (prompts : list string) (st : State) (members : pydict) (cs : list json) :
  _api (self st) = "OpenAI"%string ->
  answered net (List.length (sent st)) (_max_tries (self st)) (JObj members) ->
  Dict.contains "error" members = false ->
  Dict.get "choices" members = Some (JArr cs) ->
  List.length cs <> List.length prompts ->
  fst (__call__ json_dumps py_str env net prompts st) = Raise AssertionError.
Proof.
  intros Hapi Hans Herr Hch Hlen.
  destruct (call_answered json_dumps py_str env net prompts st _ Hapi Hans)
    as [st' [Hself ->]].
  unfold process_responses, bind, lift, py_contains, py_getitem.
  rewrite Herr, Hch. cbv beta iota. unfold py_len. cbv beta iota.
  destruct (Nat.eqb_spec (List.length cs) (List.length prompts)); [contradiction|].
  reflexivity.
Qed.

Lemma length_mismatch_raises_assertion_witness :
  fst (__call__ demo_dumps demo_str no_env
         (net_replies (JObj [("choices"%string, JArr [JObj [("text"%string, JStr "Hi")]])]))
         ["Hello"%string; "World"%string] (demo_state false 3 30))
  = Raise AssertionError.
Proof.
  apply (length_mismatch_raises_assertion demo_dumps demo_str no_env
           (net_replies (JObj [("choices"%string, JArr [JObj [("text"%string, JStr "Hi")]])]))
           ["Hello"%string; "World"%string] (demo_state false 3 30)
           [("choices"%string, JArr [JObj [("text"%string, JStr "Hi")]])]
           [JObj [("text"%string, JStr "Hi")]]).
  - reflexivity.
  - apply net_replies_answered. reflexivity.
  - reflexivity.
  - reflexivity.
  - cbn. discriminate.
Defined.

(** X8.  A response object with neither the key [error] nor the key
    [choices] makes the call raise [KeyError] for [choices], in strict
    mode and otherwise. *)
Theorem missing_choices_raises_key_error
    (json_dumps : json -> Result string) (py_str : json -> string)
    (env : Environ) (net : Network)
    (prompts : list string) (st : State) (members : pydict) :
  _api (self st) = "OpenAI"%string ->
  answered net (List.length (sent st)) (_max_tries (self st)) (JObj members) ->
  Dict.contains "error" members = false ->
  Dict.contains "choices" members = false ->
  fst (__call__ json_dumps py_str env net prompts st) = Raise (KeyError "choices").
Proof.
  intros Hapi Hans Herr Hch.
  destruct (call_answered json_dumps py_str env net prompts st _ Hapi Hans)
    as [st' [Hself ->]].
  apply DictFacts.contains_false_get in Hch.
  unfold process_responses, bind, lift, py_contains, py_getitem.
  rewrite Herr, Hch. reflexivity.
Qed.

Lemma missing_choices_raises_key_error_witness :
  fst (__call__ demo_dumps demo_str no_env
         (net_replies (JObj [("id"%string, JStr "cmpl-1")]))
         ["Hello"%string] (demo_state true 3 30))
  = Raise (KeyError "choices").
Proof.
  apply (missing_choices_raises_key_error demo_dumps demo_str no_env
           (net_replies (JObj [("id"%string, JStr "cmpl-1")]))
           ["Hello"%string] (demo_state true 3 30) [("id"%string, JStr "cmpl-1")]).
  - reflexivity.
  - apply net_replies_answered. reflexivity.
  - reflexivity.
  - reflexivity.
Defined.

Lemma outputs_entries_return (json_dumps : json -> Result string) entries os :
  outputs json_dumps entries = Return os ->
  Forall (entry_returns json_dumps) entries.
Proof.
  intros H. apply outputs_pointwise in H.
  induction H as [|e o rest os' Ho _ IH]; constructor; [|exact IH].
  apply entry_returns_iff. eauto.
Qed.

(** X9.  For an error-free response whose [choices] array has one entry
    per prompt, the call returns a batch exactly when every entry is a
    JSON object, or a string or an array in which ["text"] does not
    occur, and every entry without a [text] field is one that
    [json_dumps] serializes; otherwise it raises. *)
Theorem call_returns_iff_entries_ok
    (json_dumps : json -> Result string) (py_str : json -> string)
    (env : Environ) (net : Network)
    (prompts : list string) (st : State) (members : pydict) (cs : list json) :
  _api (self st) = "OpenAI"%string ->
  answered net (List.length (sent st)) (_max_tries (self st)) (JObj members) ->
  Dict.contains "error" members = false ->
  Dict.get "choices" members = Some (JArr cs) ->
  List.length cs = List.length prompts ->
  (exists out, fst (__call__ json_dumps py_str env net prompts st) = Return out)
  <-> Forall (entry_returns json_dumps) cs.
Proof.
  intros Hapi Hans Herr Hch Hlen.
  destruct (call_answered json_dumps py_str env net prompts st _ Hapi Hans)
    as [st' [Hself ->]].
  rewrite (process_choices json_dumps py_str prompts members cs st' Herr Hch Hlen).
  cbn [fst]. split.
  - intros [out Hout]. exact (outputs_entries_return _ _ _ Hout).
  - apply outputs_total.
Qed.

Lemma call_returns_iff_entries_ok_witness :
  (exists out,
     fst (__call__ demo_dumps demo_str no_env
            (net_replies (JObj [("choices"%string, JArr [JStr "plain"; JObj []])]))
            ["Hello"%string; "World"%string] (demo_state true 3 30)) = Return out)
  <-> Forall (entry_returns demo_dumps) [JStr "plain"; JObj []].
Proof.
  apply (call_returns_iff_entries_ok demo_dumps demo_str no_env
           (net_replies (JObj [("choices"%string, JArr [JStr "plain"; JObj []])]))
           ["Hello"%string; "World"%string] (demo_state true 3 30)
           [("choices"%string, JArr [JStr "plain"; JObj []])]
           [JStr "plain"; JObj []]).
  - reflexivity.
  - apply net_replies_answered. reflexivity.
  - reflexivity.
  - reflexivity.
  - reflexivity.
Defined.

(** X10.  The [strict] flag matters on the error path only: for a response
    in which the test ["error" in responses] does not hold, a client and
    the same client with the other flag return the same batch or raise the
    same exception. *)
Theorem strict_only_matters_on_error
    (json_dumps : json -> Result string) (py_str : json -> string)
    (env : Environ) (net : Network)
    (prompts : list string) (st : State) (resp : json) (flag : bool) :
  _api (self st) = "OpenAI"%string ->
  answered net (List.length (sent st)) (_max_tries (self st)) resp ->
  py_contains "error" resp <> Return true ->
  fst (__call__ json_dumps py_str env net prompts (set_strict flag st))
  = fst (__call__ json_dumps py_str env net prompts st).
Proof.
  intros Hapi Hans Hno.
  destruct (call_answered json_dumps py_str env net prompts st _ Hapi Hans)
    as [st1 [_ ->]].
  destruct (call_answered json_dumps py_str env net prompts (set_strict flag st)
              resp Hapi Hans) as [st2 [_ ->]].
  now apply process_without_error_ignores_state.
Qed.

Lemma strict_only_matters_on_error_witness :
  fst (__call__ demo_dumps demo_str no_env
         (net_replies (JObj [("choices"%string, JArr [JObj [("index"%string, JInt 0)]])]))
         ["Hello"%string] (set_strict false (demo_state true 3 30)))
  = fst (__call__ demo_dumps demo_str no_env
           (net_replies (JObj [("choices"%string, JArr [JObj [("index"%string, JInt 0)]])]))
           ["Hello"%string] (demo_state true 3 30)).
Proof.
  apply (strict_only_matters_on_error demo_dumps demo_str no_env
           (net_replies (JObj [("choices"%string, JArr [JObj [("index"%string, JInt 0)]])]))
           ["Hello"%string] (demo_state true 3 30)
           (JObj [("choices"%string, JArr [JObj [("index"%string, JInt 0)]])]) false).
  - reflexivity.
  - apply net_replies_answered. reflexivity.
  - cbn. discriminate.
Defined.

(** X11.  The constructor takes ["url"] out of the dictionary it is given,
    which is the client's configuration from then on: a second client
    built from that dictionary does not see the URL and gets the default
    one, with the configuration unchanged. *)
Theorem second_construction_gets_default_url
    (api : string) (config : pydict) (strict strict' : bool)
    (max_tries timeout max_tries' timeout' : Z) (log log' log2 : list Request)
    (b : Backend) :
  __init__ api config strict max_tries timeout log = (Return b, log') ->
  __init__ api (_config b) strict' max_tries' timeout' log2
  = (Return {| _api := "OpenAI";
               _config := _config b;
               _strict := strict';
               _max_tries := max_tries';
               _timeout := timeout';
               _url := JStr "https://api.openai.com/v1/completions" |}, log2).
Proof.
  intros Hinit.
  destruct (init_api _ _ _ _ _ _ _ _ Hinit) as [-> [_ ->]].
  rewrite init_supported in Hinit. injection Hinit as <-. cbn [_config].
  rewrite init_supported.
  assert (Hgone : Dict.contains "url" (Dict.remove "url" config) = false)
    by apply DictFacts.contains_remove.
  rewrite (DictFacts.remove_absent _ _ Hgone).
  apply DictFacts.contains_false_get in Hgone. now rewrite Hgone.
Qed.

Lemma second_construction_gets_default_url_witness :
  __init__ "OpenAI" [("model"%string, JStr "ada")] false 1 10 []
  = (Return {| _api := "OpenAI";
               _config := [("model"%string, JStr "ada")];
               _strict := false;
               _max_tries := 1;
               _timeout := 10;
               _url := JStr "https://api.openai.com/v1/completions" |}, []).
Proof.
  apply (second_construction_gets_default_url "OpenAI"
           [("url"%string, JStr "http://localhost:8080/v1/completions");
            ("model"%string, JStr "ada")] true false 3 30 1 10 [] [] []
           {| _api := "OpenAI";
              _config := [("model"%string, JStr "ada")];
              _strict := true;
              _max_tries := 3;
              _timeout := 30;
              _url := JStr "http://localhost:8080/v1/completions" |}).
  reflexivity.
Defined.

(** X12.  A client that the constructor returned always finds its handler:
    its [__call__] is [_call_openai], and the lookup in [self._calls]
    never raises. *)
Theorem constructed_client_dispatches
    (json_dumps : json -> Result string) (py_str : json -> string)
    (env : Environ) (net : Network)
    (prompts : list string) (api : string) (config : pydict) (strict : bool)
    (max_tries timeout : Z) (log log' posted : list Request) (b : Backend) :
  __init__ api config strict max_tries timeout log = (Return b, log') ->
  __call__ json_dumps py_str env net prompts {| self := b; sent := posted |}
  = _call_openai json_dumps py_str env net prompts {| self := b; sent := posted |}.
Proof.
  intros Hinit. apply call_dispatch.
  now destruct (init_api _ _ _ _ _ _ _ _ Hinit) as [_ [Hapi _]].
Qed.

Lemma constructed_client_dispatches_witness :
  __call__ demo_dumps demo_str no_env net_down ["A"%string] (demo_state true 3 30)
  = _call_openai demo_dumps demo_str no_env net_down ["A"%string] (demo_state true 3 30).
Proof.
  apply (constructed_client_dispatches demo_dumps demo_str no_env net_down
           ["A"%string] "OpenAI" [] true 3 30 [] [] [] (demo_backend true 3 30)).
  reflexivity.
Defined.

(** X13.  A parsed response that is [None], a boolean or a number makes
    the call raise [TypeError] at the test ["error" in responses], in
    strict mode and otherwise. *)
Theorem scalar_response_raises_type_error
    (json_dumps : json -> Result string) (py_str : json -> string)
    (env : Environ) (net : Network)
    (prompts : list string) (st : State) (resp : json) :
  _api (self st) = "OpenAI"%string ->
  answered net (List.length (sent st)) (_max_tries (self st)) resp ->
  is_scalar resp = true ->
  fst (__call__ json_dumps py_str env net prompts st) = Raise TypeError.
Proof.
  intros Hapi Hans Hsc.
  destruct (call_answered json_dumps py_str env net prompts st _ Hapi Hans)
    as [st' [Hself ->]].
  destruct resp; try discriminate; reflexivity.
Qed.

Lemma scalar_response_raises_type_error_witness :
  fst (__call__ demo_dumps demo_str no_env (net_replies JNull) ["A"%string]
         (demo_state false 3 30))
  = Raise TypeError.
Proof.
  apply (scalar_response_raises_type_error demo_dumps demo_str no_env
           (net_replies JNull) ["A"%string] (demo_state false 3 30) JNull).
  - reflexivity.
  - apply net_replies_answered. reflexivity.
  - reflexivity.
Defined.

(** X14.  A client that is not strict and obtains a response object with
    the key [error] on which [json_dumps] raises, raises that exception:
    the serialization of the error payload is not guarded. *)
Theorem lenient_error_unserializable_raises
    (json_dumps : json -> Result string) (py_str : json -> string)
    (env : Environ) (net : Network)
    (prompts : list string) (st : State) (members : pydict) (e : exn) :
  _api (self st) = "OpenAI"%string ->
  _strict (self st) = false ->
  answered net (List.length (sent st)) (_max_tries (self st)) (JObj members) ->
  Dict.contains "error" members = true ->
  json_dumps (JObj members) = Raise e ->
  fst (__call__ json_dumps py_str env net prompts st) = Raise e.
Proof.
  intros Hapi Hstrict Hans Herr Hdump.
  destruct (call_answered json_dumps py_str env net prompts st _ Hapi Hans)
    as [st' [Hself ->]].
  rewrite process_error_lenient; [| assumption | congruence].
  now rewrite Hdump.
Qed.

Lemma lenient_error_unserializable_raises_witness :
  fst (__call__ demo_dumps demo_str no_env
         (net_replies (JObj [("error"%string, JObj [("code"%string, JInt (2 ^ 64))])]))
         ["A"%string; "B"%string] (demo_state false 3 30))
  = Raise OverflowError.
Proof.
  apply (lenient_error_unserializable_raises demo_dumps demo_str no_env
           (net_replies (JObj [("error"%string, JObj [("code"%string, JInt (2 ^ 64))])]))
           ["A"%string; "B"%string] (demo_state false 3 30)
           [("error"%string, JObj [("code"%string, JInt (2 ^ 64))])] OverflowError).
  - reflexivity.
  - reflexivity.
  - apply net_replies_answered. reflexivity.
  - reflexivity.
  - reflexivity.
Defined.

Lemma outputs_first_failure (json_dumps : json -> Result string) before e after x :
  Forall (entry_returns json_dumps) before ->
  entry_output json_dumps e = Raise x ->
  outputs json_dumps (before ++ e :: after) = Raise x.
Proof.
  intros Hbefore He. induction Hbefore as [|b rest Hb _ IH]; cbn [app outputs].
  - now rewrite He.
  - apply entry_returns_iff in Hb. destruct Hb as [o Ho]. now rewrite Ho, IH.
Qed.

(** X15.  In an error-free response whose [choices] array has one entry
    per prompt, when the first entry that makes the loop raise is one
    without a [text] field on which [json_dumps] raises, the call raises
    that exception, in strict mode and otherwise, and the outputs
    collected for the entries before it are lost. *)
Theorem unserializable_entry_raises_its_exception
    (json_dumps : json -> Result string) (py_str : json -> string)
    (env : Environ) (net : Network)
    (prompts : list string) (st : State) (members : pydict)
    (before after : list json) (e : json) (x : exn) :
  _api (self st) = "OpenAI"%string ->
  answered net (List.length (sent st)) (_max_tries (self st)) (JObj members) ->
  Dict.contains "error" members = false ->
  Dict.get "choices" members = Some (JArr (before ++ e :: after)) ->
  List.length (before ++ e :: after) = List.length prompts ->
  Forall (entry_returns json_dumps) before ->
  py_contains "text" e = Return false ->
  json_dumps e = Raise x ->
  fst (__call__ json_dumps py_str env net prompts st) = Raise x.
Proof.
  intros Hapi Hans Herr Hch Hlen Hbefore Hno Hdump.
  destruct (call_answered json_dumps py_str env net prompts st _ Hapi Hans)
    as [st' [Hself ->]].
  rewrite (process_choices json_dumps py_str prompts members _ st' Herr Hch Hlen).
  cbn [fst]. apply outputs_first_failure; [assumption|].
  unfold entry_output. now rewrite Hno, Hdump.
Qed.

Lemma unserializable_entry_raises_its_exception_witness :
  fst (__call__ demo_dumps demo_str no_env
         (net_replies (JObj [("choices"%string,
                              JArr [JObj [("text"%string, JStr "Hi")];
                                    JObj [("index"%string, JInt (2 ^ 64))]])]))
         ["Hello"%string; "World"%string] (demo_state false 3 30))
  = Raise OverflowError.
Proof.
  apply (unserializable_entry_raises_its_exception demo_dumps demo_str no_env
           (net_replies (JObj [("choices"%string,
                                JArr [JObj [("text"%string, JStr "Hi")];
                                      JObj [("index"%string, JInt (2 ^ 64))]])]))
           ["Hello"%string; "World"%string] (demo_state false 3 30)
           [("choices"%string,
             JArr [JObj [("text"%string, JStr "Hi")];
                   JObj [("index"%string, JInt (2 ^ 64))]])]
           [JObj [("text"%string, JStr "Hi")]] []
           (JObj [("index"%string, JInt (2 ^ 64))]) OverflowError).
  - reflexivity.
  - apply net_replies_answered. reflexivity.
  - reflexivity.
  - reflexivity.
  - reflexivity.
  - repeat constructor; cbn; discriminate.
  - reflexivity.
  - reflexivity.
Defined.
